(** * pslab/mock_handler.py : the MockHandler class

    A shallow embedding of [MockHandler], the in-memory stand-in for the
    PSLab serial handler, and the properties of its byte-level contract.

    Python objects are modelled as follows.
    - [bytes] and [bytearray] contents: [list byte].
    - [int]: [Z] (unbounded, as in Python).
    - [Dict[bytes, bytes]]: an association list in insertion order without
      duplicate keys; [dict.items()] iterates it from the head.
    - a method: a function from the instance to a result (a value or a
      raised exception) and the instance afterwards; attribute updates made
      before an exception is raised are kept.
    - the logger: the records handed to it, oldest first. *)

From Stdlib Require Import ZArith List Bool String Lia.
From Stdlib Require Import Strings.Byte.
Import ListNotations.

Local Open Scope Z_scope.

(** ** Python values and built-ins *)

Definition bytes := list byte.

Inductive exn : Type :=
| RuntimeError (msg : string)
| TypeError (msg : string)
| ValueError            (* bytes([val]) with val outside range(0, 256) *)
| StructError.          (* struct.error *)

Inductive result (A : Type) : Type :=
| Ok (a : A)
| Raise (e : exn).
Arguments Ok {A} a.
Arguments Raise {A} e.

(** The values a caller may hand to [send_byte], whose parameter is
    dispatched on with [isinstance]. *)
Inductive pyval : Type :=
| PyInt (z : Z)
| PyBool (b : bool)
| PyBytes (b : bytes)
| PyByteArray (b : bytes)
| PyStr (s : string)
| PyNone.

Module Py.

Definition len (b : bytes) : Z := Z.of_nat (List.length b).

Definition int_of_byte (b : byte) : Z := Z.of_N (Byte.to_N b).

Definition byte_of_int (z : Z) : option byte :=
  if (0 <=? z) && (z <? 256) then Byte.of_N (Z.to_N z) else None.

Fixpoint bytes_eqb (a b : bytes) : bool :=
  match a, b with
  | [], [] => true
  | x :: a', y :: b' => Byte.eqb x y && bytes_eqb a' b'
  | _, _ => false
  end.

(** [data.startswith(prefix)] *)
Fixpoint startswith (data prefix : bytes) {struct prefix} : bool :=
  match prefix with
  | [] => true
  | p :: prefix' =>
      match data with
      | [] => false
      | d :: data' => Byte.eqb d p && startswith data' prefix'
      end
  end.

(** The index a slice bound [i] denotes in a sequence of length [n]:
    negative bounds count from the end, and the result is clipped to
    [0..n]. *)
Definition slice_index (n i : Z) : nat :=
  Z.to_nat (if i <? 0 then Z.max 0 (n + i) else Z.min i n).

(** [b[:i]] *)
Definition slice_to (b : bytes) (i : Z) : bytes :=
  firstn (slice_index (len b) i) b.

(** [b[i:]] *)
Definition slice_from (b : bytes) (i : Z) : bytes :=
  skipn (slice_index (len b) i) b.

(** [bytes([val])] *)
Definition bytes_of_int (val : Z) : result bytes :=
  match byte_of_int val with
  | Some b => Ok [b]
  | None => Raise ValueError
  end.

(** [struct.pack('<H', val)] *)
Definition pack_H (val : Z) : result bytes :=
  if (0 <=? val) && (val <=? 65535) then
    match byte_of_int (val mod 256), byte_of_int (val / 256) with
    | Some lo, Some hi => Ok [lo; hi]
    | _, _ => Raise StructError
    end
  else Raise StructError.

(** [struct.unpack('<H', data)[0]] *)
Definition unpack_H (data : bytes) : result Z :=
  match data with
  | [lo; hi] => Ok (int_of_byte lo + 256 * int_of_byte hi)
  | _ => Raise StructError
  end.

(** [isinstance(val, int)]; [bool] is a subclass of [int]. *)
Definition isinstance_int (val : pyval) : option Z :=
  match val with
  | PyInt z => Some z
  | PyBool b => Some (if b then 1 else 0)
  | _ => None
  end.

(** [isinstance(val, bytes)] *)
Definition isinstance_bytes (val : pyval) : option bytes :=
  match val with
  | PyBytes b => Some b
  | _ => None
  end.

(** [str(type(val))] *)
Definition type_repr (val : pyval) : string :=
  match val with
  | PyInt _ => "<class 'int'>"
  | PyBool _ => "<class 'bool'>"
  | PyBytes _ => "<class 'bytes'>"
  | PyByteArray _ => "<class 'bytearray'>"
  | PyStr _ => "<class 'str'>"
  | PyNone => "<class 'NoneType'>"
  end.

(** Truth value of an [Optional[str]]: [None] and [""] are false. *)
Definition truthy (s : option string) : bool :=
  match s with
  | Some EmptyString => false
  | Some _ => true
  | None => false
  end.

(** [d[k] = v] on an insertion-ordered dict: an existing key keeps its
    position, a new key goes last. *)
Fixpoint dict_set (d : list (bytes * bytes)) (k v : bytes)
  : list (bytes * bytes) :=
  match d with
  | [] => [(k, v)]
  | (k', v') :: d' =>
      if bytes_eqb k' k then (k', v) :: d'
      else (k', v') :: dict_set d' k v
  end.

End Py.

(** ** The instance *)

(** What the handler hands to its logger. *)
Inductive log_record : Type :=
| Info_connected (port : string)          (* "MockHandler connected on {port}" *)
| Info_disconnected                       (* "MockHandler disconnected." *)
| Debug_unmapped_write (data : bytes)     (* "Write: {data.hex()} (No specific response mapped)" *)
| Warning_short_read (size available : Z).
                                          (* "MockHandler: Requested {size} bytes, but only {available} available." *)

Record MockHandler : Type := mkMockHandler {
  connected : bool;
  port : string;
  response_map : list (bytes * bytes);
  read_buffer : bytes;
  logger : list log_record
}.

(** ** Methods as state transformers that may raise *)

Definition M (A : Type) : Type := MockHandler -> result A * MockHandler.

Definition ret {A} (a : A) : M A := fun self => (Ok a, self).

Definition raise {A} (e : exn) : M A := fun self => (Raise e, self).

Definition bind {A B} (m : M A) (k : A -> M B) : M B :=
  fun self =>
    match m self with
    | (Ok a, self') => k a self'
    | (Raise e, self') => (Raise e, self')
    end.

(** A pure computation that may raise. *)
Definition lift {A} (r : result A) : M A := fun self => (r, self).

Notation "x <- m ;; k" := (bind m (fun x => k))
  (at level 61, m at next level, right associativity).
Notation "m ;; k" := (bind m (fun _ => k))
  (at level 61, right associativity).

Definition attr {A} (f : MockHandler -> A) : M A :=
  fun self => (Ok (f self), self).

Definition set_connected (b : bool) : M unit :=
  fun self =>
    (Ok tt, mkMockHandler b (port self) (response_map self)
                          (read_buffer self) (logger self)).

Definition set_port (p : string) : M unit :=
  fun self =>
    (Ok tt, mkMockHandler (connected self) p (response_map self)
                          (read_buffer self) (logger self)).

Definition set_response_map (m : list (bytes * bytes)) : M unit :=
  fun self =>
    (Ok tt, mkMockHandler (connected self) (port self) m
                          (read_buffer self) (logger self)).

Definition set_read_buffer (b : bytes) : M unit :=
  fun self =>
    (Ok tt, mkMockHandler (connected self) (port self) (response_map self)
                          b (logger self)).

Definition log (r : log_record) : M unit :=
  fun self =>
    (Ok tt, mkMockHandler (connected self) (port self) (response_map self)
                          (read_buffer self) (logger self ++ [r])).

(** [self.read_buffer.extend(data)] *)
Definition read_buffer_extend (data : bytes) : M unit :=
  buf <- attr read_buffer ;; set_read_buffer (buf ++ data).

(** [self.read_buffer.clear()] *)
Definition read_buffer_clear : M unit := set_read_buffer [].

(** ** MockHandler's methods *)

Definition __init__ (port : option string) : MockHandler :=
  {| connected := false;
     port := if Py.truthy port
             then match port with Some p => p | None => "MOCK_PORT"%string end
             else "MOCK_PORT"%string;
     response_map := [];
     read_buffer := [];
     logger := [] |}.

Definition open (port' : option string) : M unit :=
  (if Py.truthy port'
   then match port' with Some p => set_port p | None => ret tt end
   else ret tt) ;;
  set_connected true ;;
  p <- attr port ;;
  log (Info_connected p).

Definition close : M unit :=
  set_connected false ;;
  read_buffer_clear ;;
  log Info_disconnected.

(** The [for command, response in self.response_map.items()] loop of
    [write], run over the items still to visit; the result is
    [match_found]. *)
Fixpoint write_scan (data : bytes) (items : list (bytes * bytes)) : M bool :=
  match items with
  | [] => ret false
  | (command, response) :: items' =>
      if Py.startswith data command
      then read_buffer_extend response ;; ret true
      else write_scan data items'
  end.

Definition write (data : bytes) : M Z :=
  c <- attr connected ;;
  if negb c
  then raise (RuntimeError "Attempted to write to closed MockHandler.")
  else
    items <- attr response_map ;;
    match_found <- write_scan data items ;;
    (if negb match_found then log (Debug_unmapped_write data) else ret tt) ;;
    ret (Py.len data).

Definition read (size : Z) : M bytes :=
  c <- attr connected ;;
  if negb c
  then raise (RuntimeError "Attempted to read from closed MockHandler.")
  else
    buf <- attr read_buffer ;;
    let available := Py.len buf in
    if available <? size
    then
      log (Warning_short_read size available) ;;
      read_buffer_clear ;;
      ret buf
    else
      set_read_buffer (Py.slice_from buf size) ;;
      ret (Py.slice_to buf size).

(** The class body defines [get_ack] twice; the second definition, which
    returns [True], is the one bound to the name. *)
Definition get_ack : M bool := ret true.

Definition clear_buffer : M unit := read_buffer_clear.

Definition send_byte (val : pyval) : M unit :=
  match Py.isinstance_int val with
  | Some z =>
      b <- lift (Py.bytes_of_int z) ;;
      write b ;;
      ret tt
  | None =>
      match Py.isinstance_bytes val with
      | Some b => write b ;; ret tt
      | None =>
          raise (TypeError (String.append
                              "send_byte expects int or bytes, got "
                              (Py.type_repr val)))
      end
  end.

Definition send_int (val : Z) : M unit :=
  b <- lift (Py.pack_H val) ;;
  write b ;;
  ret tt.

Definition read_byte : M Z :=
  data <- read 1 ;;
  match data with
  | [] => ret 0
  | b :: _ => ret (Py.int_of_byte b)
  end.

Definition read_int : M Z :=
  data <- read 2 ;;
  if Py.len data <? 2
  then ret 0
  else lift (Py.unpack_H data).

Definition register_response (command response : bytes) : M unit :=
  m <- attr response_map ;;
  set_response_map (Py.dict_set m command response).

Definition inject_data (data : bytes) : M unit :=
  read_buffer_extend data.

(** ** Calls on an instance *)

Inductive call : Type :=
| Open (port : option string)
| Close
| Write (data : bytes)
| Read (size : Z)
| GetAck
| ClearBuffer
| SendByte (val : pyval)
| SendInt (val : Z)
| ReadByte
| ReadInt
| RegisterResponse (command response : bytes)
| InjectData (data : bytes).

Inductive value : Type :=
| VNone
| VInt (z : Z)
| VBytes (b : bytes)
| VBool (b : bool).

Definition exec (c : call) : M value :=
  match c with
  | Open p => open p ;; ret VNone
  | Close => close ;; ret VNone
  | Write data => n <- write data ;; ret (VInt n)
  | Read size => b <- read size ;; ret (VBytes b)
  | GetAck => b <- get_ack ;; ret (VBool b)
  | ClearBuffer => clear_buffer ;; ret VNone
  | SendByte val => send_byte val ;; ret VNone
  | SendInt val => send_int val ;; ret VNone
  | ReadByte => n <- read_byte ;; ret (VInt n)
  | ReadInt => n <- read_int ;; ret (VInt n)
  | RegisterResponse command response =>
      register_response command response ;; ret VNone
  | InjectData data => inject_data data ;; ret VNone
  end.

Definition is_register_response (c : call) : bool :=
  match c with
  | RegisterResponse _ _ => true
  | _ => false
  end.

(** A test script: the calls are made in order on the same instance; a
    raised exception ends one call, not the script. *)
Fixpoint run (cs : list call) (self : MockHandler) : MockHandler :=
  match cs with
  | [] => self
  | c :: cs' => run cs' (snd (exec c self))
  end.

(** The instance after a method call, and what the call produced. *)
Definition after {A} (m : M A) (self : MockHandler) : MockHandler :=
  snd (m self).

Definition outcome {A} (m : M A) (self : MockHandler) : result A :=
  fst (m self).

(** The calls that go through [write] or [read], which check the
    connection. *)
Definition is_transfer (c : call) : bool :=
  match c with
  | Write _ | Read _ | SendByte _ | SendInt _ | ReadByte | ReadInt => true
  | _ => false
  end.

Definition is_open (c : call) : bool :=
  match c with
  | Open _ => true
  | _ => false
  end.

Definition is_close (c : call) : bool :=
  match c with
  | Close => true
  | _ => false
  end.

(** A method is exception safe when a call that raises leaves the
    instance as it found it. *)
Definition exception_safe {A} (m : M A) : Prop :=
  forall self e, outcome m self = Raise e -> after m self = self.

(** A method never raises. *)
Definition never_raises {A} (m : M A) : Prop :=
  forall self, exists a, outcome m self = Ok a.

(** The configuration of an instance: everything but the read buffer and
    the log. *)
Definition same_config (s s' : MockHandler) : Prop :=
  connected s' = connected s
  /\ port s' = port s
  /\ response_map s' = response_map s.

(** Why a call may raise [e]: the not-connected error comes from a closed
    handler, the type and value errors from the argument of [send_byte],
    [struct.error] from the argument of [send_int]. *)
Definition raised_for (c : call) (self : MockHandler) (e : exn) : Prop :=
  match e with
  | RuntimeError _ => is_transfer c = true /\ connected self = false
  | TypeError _ =>
      exists val,
        c = SendByte val
        /\ Py.isinstance_int val = None
        /\ Py.isinstance_bytes val = None
  | ValueError =>
      exists val z,
        c = SendByte val
        /\ Py.isinstance_int val = Some z
        /\ (z < 0 \/ 255 < z)
  | StructError =>
      exists val, c = SendInt val /\ (val < 0 \/ 65535 < val)
  end.

(** ** Scenarios *)

(** A method hands [written] to [write]: on every instance it does what
    [self.write(written)] does, and returns [None]. *)
Definition hands_to_write (m : M unit) (written : bytes) : Prop :=
  forall self, m self = (write written ;; ret tt) self.

(** The round trip of the 16-bit helpers: [send_int(val)], then
    [inject_data(written)], then [read_int()].  [written] stands for the
    bytes [send_int] handed to [write]; the properties below say which
    bytes those are. *)
Definition send_int_round_trip (val : Z) (written : bytes) : M Z :=
  send_int val ;;
  inject_data written ;;
  read_int.

(** The same for single bytes: [send_byte(val)], then
    [inject_data(written)], then [read_byte()]. *)
Definition send_byte_round_trip (val : Z) (written : bytes) : M Z :=
  send_byte (PyInt val) ;;
  inject_data written ;;
  read_byte.

(** A handler opened on the default port. *)
Definition opened : MockHandler := run [Open None] (__init__ None).

(** Two registered keys, the first a prefix of the second. *)
Definition nested_prefixes : MockHandler :=
  run [Open None;
       RegisterResponse ["001"]%byte ["170"]%byte;
       RegisterResponse ["001"; "002"]%byte ["187"]%byte]
      (__init__ None).

(** Two bytes are waiting in the read buffer. *)
Definition pending_bytes : MockHandler :=
  run [Open None; InjectData ["001"; "000"]%byte] (__init__ None).

(** The bytes [send_int(0x1234)] writes are answered with two zero bytes. *)
Definition answers_0x1234 : MockHandler :=
  run [Open None; RegisterResponse ["052"]%byte ["000"; "000"]%byte]
      (__init__ None).

(** No key of [items] is a prefix of [data]. *)
Definition unmatched (data : bytes) (items : list (bytes * bytes)) : Prop :=
  forall command response,
    In (command, response) items -> Py.startswith data command = false.

(** ** Proof automation *)

(** Runs the monadic plumbing of a method body on an instance given by
    its fields. *)
Ltac step_method :=
  cbv beta delta [bind attr ret raise lift log set_connected set_port
                  set_response_map set_read_buffer read_buffer_extend
                  read_buffer_clear];
  cbn [negb fst snd connected port response_map read_buffer logger].

Ltac on_fields self :=
  destruct self as [c p m buf lg];
  cbn [connected port response_map read_buffer logger] in *; subst.

(** * Properties *)

(** ** Python built-ins *)

Lemma len_nonneg (b : bytes) : 0 <= Py.len b.
Proof. unfold Py.len. lia. Qed.

Lemma len_app (a b : bytes) : Py.len (a ++ b) = Py.len a + Py.len b.
Proof. unfold Py.len. rewrite length_app. lia. Qed.

Lemma byte_eqb_true_iff (x y : byte) : Byte.eqb x y = true <-> x = y.
Proof.
  split; [apply Byte.byte_dec_bl | apply Byte.byte_dec_lb].
Qed.

Lemma bytes_eqb_true_iff (a b : bytes) : Py.bytes_eqb a b = true <-> a = b.
Proof.
  revert b. induction a as [|x a IH]; intros [|y b]; simpl;
    try (split; [discriminate | discriminate]); [tauto|].
  rewrite andb_true_iff, byte_eqb_true_iff, IH.
  split; [intros [-> ->]; reflexivity | intros E; inversion E; auto].
Qed.

(** [startswith] is the prefix relation. *)
Lemma startswith_true_iff (data prefix : bytes) :
  Py.startswith data prefix = true <-> exists rest, data = prefix ++ rest.
Proof.
  revert data. induction prefix as [|p prefix IH]; intros data; simpl.
  - split; [exists data; reflexivity | reflexivity].
  - destruct data as [|d data].
    + split; [discriminate | intros [rest E]; discriminate E].
    + rewrite andb_true_iff, byte_eqb_true_iff, IH. split.
      * intros [-> [rest ->]]. exists rest. reflexivity.
      * intros [rest E]. inversion E; subst. eauto.
Qed.

Lemma slice_index_in_range (n i : Z) :
  0 <= i <= n -> Py.slice_index n i = Z.to_nat i.
Proof.
  intros H. unfold Py.slice_index.
  destruct (Z.ltb_spec i 0); [lia|]. f_equal. lia.
Qed.

Lemma int_of_byte_range (b : byte) : 0 <= Py.int_of_byte b <= 255.
Proof.
  unfold Py.int_of_byte. pose proof (Byte.to_N_bounded b). lia.
Qed.

Lemma byte_of_int_Some (z : Z) :
  0 <= z <= 255 ->
  exists b, Py.byte_of_int z = Some b /\ Py.int_of_byte b = z.
Proof.
  intros H. unfold Py.byte_of_int, Py.int_of_byte.
  destruct (Z.leb_spec 0 z); [|lia]. destruct (Z.ltb_spec z 256); [|lia].
  simpl. destruct (Byte.of_N (Z.to_N z)) as [b|] eqn:E.
  - exists b. split; [reflexivity|]. apply Byte.to_of_N in E. lia.
  - apply Byte.of_N_None_iff in E. lia.
Qed.

Lemma byte_of_int_None (z : Z) :
  z < 0 \/ 255 < z -> Py.byte_of_int z = None.
Proof.
  intros H. unfold Py.byte_of_int.
  destruct (Z.leb_spec 0 z); [|reflexivity].
  destruct (Z.ltb_spec z 256); [lia|reflexivity].
Qed.

(** [pack_H] then [unpack_H] is the identity on 16-bit values. *)
Lemma pack_H_unpack_H (val : Z) :
  0 <= val <= 65535 ->
  exists lo hi, Py.pack_H val = Ok [lo; hi] /\ Py.unpack_H [lo; hi] = Ok val.
Proof.
  intros H. unfold Py.pack_H.
  destruct (Z.leb_spec 0 val); [|lia]. destruct (Z.leb_spec val 65535); [|lia].
  cbn [andb].
  destruct (byte_of_int_Some (val mod 256)) as (lo & -> & Elo).
  { pose proof (Z.mod_pos_bound val 256). lia. }
  destruct (byte_of_int_Some (val / 256)) as (hi & -> & Ehi).
  { assert (0 <= val / 256) by (apply Z.div_pos; lia).
    assert (val / 256 < 256) by (apply Z.div_lt_upper_bound; lia). lia. }
  exists lo, hi. split; [reflexivity|].
  unfold Py.unpack_H. rewrite Elo, Ehi. f_equal.
  pose proof (Z.div_mod val 256 ltac:(lia)). lia.
Qed.

(** ** The scan of the response table in [write] *)

Section WriteScan.

Variable data : bytes.

Lemma write_scan_unmatched items self :
  unmatched data items -> write_scan data items self = (Ok false, self).
Proof.
  induction items as [|[command response] items IH]; intros H; simpl.
  - reflexivity.
  - rewrite (H command response) by (left; reflexivity).
    apply IH. intros c r Hin. apply (H c r). right. exact Hin.
Qed.

(** The first item whose key is a prefix of [data] is applied, and
    nothing after it is looked at. *)
Lemma write_scan_first_match before command response rest self :
  unmatched data before ->
  Py.startswith data command = true ->
  write_scan data (before ++ (command, response) :: rest) self =
    (Ok true,
     mkMockHandler (connected self) (port self) (response_map self)
                   (read_buffer self ++ response) (logger self)).
Proof.
  induction before as [|[c r] before IH]; intros Hb Hk; simpl.
  - rewrite Hk. reflexivity.
  - rewrite (Hb c r) by (left; reflexivity).
    apply IH; [|exact Hk].
    intros c' r' Hin. apply (Hb c' r'). right. exact Hin.
Qed.

(** The scan never raises, and touches the read buffer only. *)
Lemma write_scan_frame items self :
  exists found buf,
    write_scan data items self =
      (Ok found,
       mkMockHandler (connected self) (port self) (response_map self)
                     buf (logger self)).
Proof.
  induction items as [|[command response] items IH]; simpl.
  - exists false, (read_buffer self). destruct self; reflexivity.
  - destruct (Py.startswith data command).
    + exists true, (read_buffer self ++ response). reflexivity.
    + exact IH.
Qed.

End WriteScan.

(** ** [write] and [read], by case *)

Lemma write_disconnected data self :
  connected self = false ->
  write data self =
    (Raise (RuntimeError "Attempted to write to closed MockHandler."), self).
Proof.
  intros H. on_fields self. reflexivity.
Qed.

Lemma write_unmatched data self :
  connected self = true ->
  unmatched data (response_map self) ->
  write data self =
    (Ok (Py.len data),
     mkMockHandler (connected self) (port self) (response_map self)
                   (read_buffer self)
                   (logger self ++ [Debug_unmapped_write data])).
Proof.
  intros Hc Hu. on_fields self. unfold write. step_method.
  rewrite write_scan_unmatched by exact Hu. reflexivity.
Qed.

Lemma write_first_match data before command response rest self :
  connected self = true ->
  response_map self = before ++ (command, response) :: rest ->
  unmatched data before ->
  Py.startswith data command = true ->
  write data self =
    (Ok (Py.len data),
     mkMockHandler (connected self) (port self) (response_map self)
                   (read_buffer self ++ response) (logger self)).
Proof.
  intros Hc Hm Hb Hk. on_fields self. unfold write. step_method.
  rewrite write_scan_first_match by assumption. reflexivity.
Qed.

Lemma write_connected data self :
  connected self = true ->
  exists buf lg,
    write data self =
      (Ok (Py.len data),
       mkMockHandler (connected self) (port self) (response_map self) buf lg).
Proof.
  intros Hc. on_fields self. unfold write. step_method.
  destruct (write_scan_frame data m (mkMockHandler true p m buf lg))
    as (found & buf' & ->).
  destruct found; step_method; eauto.
Qed.

Lemma read_disconnected size self :
  connected self = false ->
  read size self =
    (Raise (RuntimeError "Attempted to read from closed MockHandler."), self).
Proof.
  intros H. on_fields self. reflexivity.
Qed.

Lemma read_short size self :
  connected self = true ->
  Py.len (read_buffer self) < size ->
  read size self =
    (Ok (read_buffer self),
     mkMockHandler (connected self) (port self) (response_map self) []
                   (logger self
                      ++ [Warning_short_read size (Py.len (read_buffer self))])).
Proof.
  intros Hc Hs. on_fields self. unfold read. step_method.
  destruct (Z.ltb_spec (Py.len buf) size); [|lia].
  reflexivity.
Qed.

Lemma read_full size self :
  connected self = true ->
  size <= Py.len (read_buffer self) ->
  read size self =
    (Ok (Py.slice_to (read_buffer self) size),
     mkMockHandler (connected self) (port self) (response_map self)
                   (Py.slice_from (read_buffer self) size) (logger self)).
Proof.
  intros Hc Hs. on_fields self. unfold read. step_method.
  destruct (Z.ltb_spec (Py.len buf) size); [lia|].
  reflexivity.
Qed.

(** ** The documented scenario *)

(** Register [01 -> AA BB]; [write(01 02)] returns 2 and buffers [AA BB];
    [read(2)] returns them; a further [read(1)] returns nothing, with a
    warning and without raising; [read_byte()] on the empty buffer is 0. *)
Example canned_response_scenario :
  let s0 :=
    run [Open None; RegisterResponse ["001"]%byte ["170"; "187"]%byte]
        (__init__ None) in
  let s1 := after (write ["001"; "002"]%byte) s0 in
  let s2 := after (read 2) s1 in
  let s3 := after (read 1) s2 in
  outcome (write ["001"; "002"]%byte) s0 = Ok 2
  /\ read_buffer s1 = ["170"; "187"]%byte
  /\ outcome (read 2) s1 = Ok ["170"; "187"]%byte
  /\ outcome (read 1) s2 = Ok []
  /\ logger s3 = logger s2 ++ [Warning_short_read 1 0]
  /\ outcome read_byte s3 = Ok 0.
Proof. cbv zeta. repeat split. Qed.

(** A negative size takes the slices as Python does, from the end. *)
Example read_negative_size :
  let s := run [Open None; InjectData ["001"; "002"; "003"]%byte]
               (__init__ None) in
  outcome (read (-1)) s = Ok ["001"; "002"]%byte
  /\ read_buffer (after (read (-1)) s) = ["003"]%byte.
Proof. cbv zeta. split; reflexivity. Qed.

(** C1. On a connected handler and for [0 <= n], [read n] returns at once
    with at most [n] bytes.  With fewer than [n] bytes buffered it returns
    the whole buffer and leaves it empty; otherwise it returns the first
    [n] bytes and the buffer keeps exactly what followed them. *)
Theorem read_returns_front_of_buffer (self : MockHandler) (n : Z) :
  connected self = true ->
  0 <= n ->
  exists data,
    outcome (read n) self = Ok data
    /\ Py.len data <= n
    /\ (Py.len (read_buffer self) < n ->
        data = read_buffer self
        /\ read_buffer (after (read n) self) = [])
    /\ (n <= Py.len (read_buffer self) ->
        data = firstn (Z.to_nat n) (read_buffer self)
        /\ Py.len data = n
        /\ read_buffer self = data ++ read_buffer (after (read n) self)).
Proof.
  intros Hc Hn. unfold outcome, after.
  destruct (Z.lt_ge_cases (Py.len (read_buffer self)) n) as [Hs|Hf].
  - rewrite read_short by assumption. cbn [fst snd read_buffer].
    exists (read_buffer self). repeat split; try lia.
  - rewrite read_full by assumption. cbn [fst snd read_buffer].
    exists (Py.slice_to (read_buffer self) n).
    unfold Py.slice_to, Py.slice_from.
    rewrite slice_index_in_range by lia.
    assert (Hl : Py.len (firstn (Z.to_nat n) (read_buffer self)) = n).
    { unfold Py.len in *. rewrite length_firstn. lia. }
    repeat split; try lia.
    symmetry. apply firstn_skipn.
Qed.

Lemma read_returns_front_of_buffer_witness :
  exists data,
    outcome (read 2) (mkMockHandler true "MOCK_PORT" [] ["001"; "002"; "003"]%byte [])
      = Ok data
    /\ data = ["001"; "002"]%byte.
Proof.
  destruct (read_returns_front_of_buffer
              (mkMockHandler true "MOCK_PORT" [] ["001"; "002"; "003"]%byte [])
              2 eq_refl ltac:(lia))
    as (data & Ho & _ & _ & Hfull).
  exists data. split; [exact Ho|].
  apply Hfull. vm_compute. discriminate.
Defined.

(** C3. On a connected handler [write d] returns [len d] whether or not a
    response matched, and when no registered key is a prefix of [d] the
    read buffer is left as it was. *)
Theorem write_returns_len (self : MockHandler) (d : bytes) :
  connected self = true ->
  outcome (write d) self = Ok (Py.len d)
  /\ (unmatched d (response_map self) ->
      read_buffer (after (write d) self) = read_buffer self).
Proof.
  intros Hc. unfold outcome, after. split.
  - destruct (write_connected d self Hc) as (buf & lg & ->). reflexivity.
  - intros Hu. rewrite write_unmatched by assumption. reflexivity.
Qed.

Lemma write_returns_len_witness :
  let self :=
    mkMockHandler true "MOCK_PORT" [(["001"]%byte, ["170"; "187"]%byte)]
                  ["255"]%byte [] in
  outcome (write ["002"; "003"]%byte) self = Ok 2
  /\ read_buffer (after (write ["002"; "003"]%byte) self) = ["255"]%byte.
Proof.
  intros self.
  destruct (write_returns_len self ["002"; "003"]%byte eq_refl) as [Hr Hb].
  split; [exact Hr|]. apply Hb.
  intros command response [E|[]]. inversion E; subst. reflexivity.
Defined.

(** C4. [write] and [read] raise the not-connected error exactly when the
    handler is disconnected, as on an instance that was never opened; a
    call that raises leaves the instance as it was. *)
Theorem not_connected_error_iff_disconnected :
  (forall self data,
      (exists msg, outcome (write data) self = Raise (RuntimeError msg))
      <-> connected self = false)
  /\ (forall self size,
      (exists msg, outcome (read size) self = Raise (RuntimeError msg))
      <-> connected self = false)
  /\ (forall self data e,
      outcome (write data) self = Raise e -> after (write data) self = self)
  /\ (forall self size e,
      outcome (read size) self = Raise e -> after (read size) self = self)
  /\ (forall p data,
      exists msg,
        outcome (write data) (__init__ p) = Raise (RuntimeError msg)).
Proof.
  unfold outcome, after.
  split; [|split; [|split; [|split]]].
  - intros self data. split.
    + intros [msg H]. destruct (connected self) eqn:Hc; [|reflexivity].
      destruct (write_connected data self Hc) as (buf & lg & E).
      rewrite E in H. discriminate H.
    + intros Hc. rewrite write_disconnected by exact Hc.
      eexists; reflexivity.
  - intros self size. split.
    + intros [msg H]. destruct (connected self) eqn:Hc; [|reflexivity].
      destruct (Z.lt_ge_cases (Py.len (read_buffer self)) size).
      * rewrite read_short in H by assumption. discriminate H.
      * rewrite read_full in H by assumption. discriminate H.
    + intros Hc. rewrite read_disconnected by exact Hc.
      eexists; reflexivity.
  - intros self data e H. destruct (connected self) eqn:Hc.
    + destruct (write_connected data self Hc) as (buf & lg & E).
      rewrite E in H. discriminate H.
    + rewrite write_disconnected by exact Hc. reflexivity.
  - intros self size e H. destruct (connected self) eqn:Hc.
    + destruct (Z.lt_ge_cases (Py.len (read_buffer self)) size).
      * rewrite read_short in H by assumption. discriminate H.
      * rewrite read_full in H by assumption. discriminate H.
    + rewrite read_disconnected by exact Hc. reflexivity.
  - intros p data. rewrite write_disconnected by reflexivity.
    eexists; reflexivity.
Qed.

Lemma not_connected_error_iff_disconnected_witness :
  connected (__init__ None) = false
  /\ (exists msg,
        outcome (read 1) (__init__ None) = Raise (RuntimeError msg))
  /\ after (read 1) (__init__ None) = __init__ None.
Proof.
  destruct not_connected_error_iff_disconnected
    as (_ & Hread & _ & Hkeep & _).
  assert (Hd : connected (__init__ None) = false) by reflexivity.
  split; [exact Hd|]. split.
  - apply (proj2 (Hread (__init__ None) 1)). exact Hd.
  - apply (Hkeep (__init__ None) 1
             (RuntimeError "Attempted to read from closed MockHandler.")).
    reflexivity.
Defined.

(** C5. [close] disconnects and empties the read buffer; after [close]
    then [open] the read buffer is empty and the response table is the one
    from before the [close]. *)
Theorem close_then_open_keeps_responses (self : MockHandler)
    (p : option string) :
  outcome close self = Ok tt
  /\ connected (after close self) = false
  /\ read_buffer (after close self) = []
  /\ outcome (open p) (after close self) = Ok tt
  /\ read_buffer (after (open p) (after close self)) = []
  /\ response_map (after (open p) (after close self)) = response_map self.
Proof.
  destruct self as [c q m buf lg]. unfold outcome, after.
  destruct p as [[|a s]|]; cbn; repeat split.
Qed.

(** C9. On a connected handler with fewer than two bytes buffered,
    [read_int] returns 0 without raising and leaves the buffer empty, so a
    single buffered byte is consumed and lost. *)
Theorem read_int_short_returns_zero (self : MockHandler) :
  connected self = true ->
  Py.len (read_buffer self) < 2 ->
  outcome read_int self = Ok 0
  /\ read_buffer (after read_int self) = [].
Proof.
  intros Hc Hs. unfold outcome, after, read_int, bind.
  rewrite read_short by assumption.
  destruct (Z.ltb_spec (Py.len (read_buffer self)) 2); [|lia].
  split; reflexivity.
Qed.

Lemma read_int_short_returns_zero_witness :
  let self := mkMockHandler true "MOCK_PORT" [] ["052"]%byte [] in
  connected self = true
  /\ Py.len (read_buffer self) < 2
  /\ outcome read_int self = Ok 0
  /\ read_buffer (after read_int self) = [].
Proof.
  intros self.
  assert (Hc : connected self = true) by reflexivity.
  assert (Hs : Py.len (read_buffer self) < 2) by (vm_compute; reflexivity).
  split; [exact Hc|]. split; [exact Hs|].
  exact (read_int_short_returns_zero self Hc Hs).
Defined.

(** C2, as amended.  On a connected handler [write d] applies the first
    registered pair, in the table's iteration order, whose key is a prefix
    of [d]: its response is appended to the read buffer once, whatever
    follows it in the table, and nothing else of the instance changes. *)
Theorem write_appends_first_matching_response
    (self : MockHandler) (d : bytes)
    (before : list (bytes * bytes)) (k r : bytes)
    (rest : list (bytes * bytes)) :
  connected self = true ->
  response_map self = before ++ (k, r) :: rest ->
  unmatched d before ->
  Py.startswith d k = true ->
  outcome (write d) self = Ok (Py.len d)
  /\ read_buffer (after (write d) self) = read_buffer self ++ r
  /\ connected (after (write d) self) = connected self
  /\ port (after (write d) self) = port self
  /\ response_map (after (write d) self) = response_map self
  /\ logger (after (write d) self) = logger self.
Proof.
  intros Hc Hm Hb Hk. unfold outcome, after.
  rewrite (write_first_match d before k r rest) by assumption.
  cbn [fst snd connected port response_map read_buffer logger].
  repeat split.
Qed.

Lemma write_appends_first_matching_response_witness :
  connected nested_prefixes = true
  /\ outcome (write ["001"; "002"]%byte) nested_prefixes = Ok 2
  /\ read_buffer (after (write ["001"; "002"]%byte) nested_prefixes)
     = read_buffer nested_prefixes ++ ["170"]%byte.
Proof.
  assert (Hc : connected nested_prefixes = true) by reflexivity.
  split; [exact Hc|].
  destruct (write_appends_first_matching_response
              nested_prefixes ["001"; "002"]%byte
              [] ["001"]%byte ["170"]%byte
              [(["001"; "002"]%byte, ["187"]%byte)]
              Hc eq_refl)
    as (Hr & Hbuf & _).
  - intros command response [].
  - reflexivity.
  - split; [exact Hr | exact Hbuf].
Defined.

(** C2 as stated fails: a registered pair whose key is a prefix of the
    written data is passed over when an earlier key matches too. *)
Lemma write_skips_later_matching_response :
  let self := nested_prefixes in
  let k := ["001"; "002"]%byte in
  let r := ["187"]%byte in
  let d := ["001"; "002"]%byte in
  connected self = true
  /\ In (k, r) (response_map self)
  /\ Py.startswith d k = true
  /\ read_buffer self = []
  /\ read_buffer (after (write d) self) = ["170"]%byte
  /\ read_buffer (after (write d) self) <> read_buffer self ++ r.
Proof.
  cbv zeta. repeat split.
  - right. left. reflexivity.
  - vm_compute. discriminate.
Qed.

(** ** The 16-bit round trip *)

(** What [send_int] hands to [write] is the packed value. *)
Lemma send_int_hands_packed_bytes (val : Z) (written : bytes) :
  Py.pack_H val = Ok written -> hands_to_write (send_int val) written.
Proof.
  intros H self. unfold send_int. unfold bind at 1. unfold lift.
  rewrite H. reflexivity.
Qed.

(** On a connected handler whose table does not answer it, a write is
    recorded in the log with its data, so the bytes a method hands to
    [write] are determined by what it does. *)
Lemma hands_to_write_unique (m : M unit) (w1 w2 : bytes) :
  hands_to_write m w1 -> hands_to_write m w2 -> w1 = w2.
Proof.
  intros H1 H2.
  pose proof (H1 (mkMockHandler true EmptyString [] [] [])) as E1.
  pose proof (H2 (mkMockHandler true EmptyString [] [] [])) as E2.
  rewrite E1 in E2. unfold bind in E2.
  rewrite !write_unmatched in E2
    by (try reflexivity; intros command response []).
  cbn in E2. inversion E2. reflexivity.
Qed.

(** On a connected handler whose read buffer is empty and whose response
    table does not answer the written bytes, a 16-bit value survives
    [send_int], [inject_data] of its packed bytes, [read_int]; the log
    shows the bytes that were written. *)
Lemma send_int_round_trip_16bit (self : MockHandler) (val : Z)
    (written : bytes) :
  0 <= val <= 65535 ->
  Py.pack_H val = Ok written ->
  connected self = true ->
  read_buffer self = [] ->
  unmatched written (response_map self) ->
  logger (after (send_int val) self)
    = logger self ++ [Debug_unmapped_write written]
  /\ outcome (send_int_round_trip val written) self = Ok val.
Proof.
  intros Hv Hw Hc Hbuf Hu.
  destruct (pack_H_unpack_H val Hv) as (lo & hi & Hp & Hup).
  assert (written = [lo; hi]) by congruence. subst written.
  unfold outcome, after, send_int_round_trip, send_int, inject_data.
  unfold bind, lift. rewrite Hp.
  rewrite write_unmatched by assumption.
  split; [reflexivity|].
  rewrite Hbuf. step_method.
  unfold read_int, bind.
  rewrite read_full; [|exact Hc|vm_compute; discriminate].
  cbn [read_buffer app].
  change (Py.slice_to [lo; hi] 2) with [lo; hi].
  change (Py.len [lo; hi] <? 2) with false. cbv iota.
  unfold lift. rewrite Hup. reflexivity.
Qed.

(** C6, as amended.  [send_int(0x1234)] hands the two bytes 34 12 to
    [write].  On a connected handler whose read buffer is empty and none
    of whose registered keys is a prefix of those bytes, the log records
    them as written, and [send_int(0x1234)], [inject_data] of them and
    [read_int()] give back [0x1234]. *)
Theorem send_int_0x1234_round_trip (self : MockHandler) :
  connected self = true ->
  read_buffer self = [] ->
  unmatched ["052"; "018"]%byte (response_map self) ->
  hands_to_write (send_int 0x1234) ["052"; "018"]%byte
  /\ logger (after (send_int 0x1234) self)
     = logger self ++ [Debug_unmapped_write ["052"; "018"]%byte]
  /\ outcome (send_int_round_trip 0x1234 ["052"; "018"]%byte) self
     = Ok 0x1234.
Proof.
  intros Hc Hbuf Hu.
  split; [apply send_int_hands_packed_bytes; reflexivity|].
  apply send_int_round_trip_16bit; try assumption; [lia|reflexivity].
Qed.

Lemma send_int_0x1234_round_trip_witness :
  connected opened = true
  /\ read_buffer opened = []
  /\ unmatched ["052"; "018"]%byte (response_map opened)
  /\ logger (after (send_int 0x1234) opened)
     = logger opened ++ [Debug_unmapped_write ["052"; "018"]%byte]
  /\ outcome (send_int_round_trip 0x1234 ["052"; "018"]%byte) opened
     = Ok 0x1234.
Proof.
  assert (Hc : connected opened = true) by reflexivity.
  assert (Hb : read_buffer opened = []) by reflexivity.
  assert (Hu : unmatched ["052"; "018"]%byte (response_map opened))
    by (intros command response []).
  split; [exact Hc|]. split; [exact Hb|]. split; [exact Hu|].
  exact (proj2 (send_int_0x1234_round_trip opened Hc Hb Hu)).
Defined.

(** C6 as stated fails: the round trip does not hold in every state.
    [send_int(0x1234)] hands 34 12 to [write], and with two bytes already
    waiting in the read buffer the log records them as written, yet
    injecting them and calling [read_int()] decodes the waiting bytes.  A
    registered response to the written bytes comes first as well, and a
    handler that was never opened raises. *)
Lemma send_int_round_trip_depends_on_state :
  hands_to_write (send_int 0x1234) ["052"; "018"]%byte
  /\ logger (after (send_int 0x1234) pending_bytes)
     = logger pending_bytes ++ [Debug_unmapped_write ["052"; "018"]%byte]
  /\ outcome (send_int_round_trip 0x1234 ["052"; "018"]%byte) pending_bytes
     = Ok 1
  /\ outcome (send_int_round_trip 0x1234 ["052"; "018"]%byte) answers_0x1234
     = Ok 0
  /\ outcome (send_int_round_trip 0x1234 ["052"; "018"]%byte) (__init__ None)
     = Raise (RuntimeError "Attempted to write to closed MockHandler.")
  /\ outcome (send_int_round_trip 0x1234 ["052"; "018"]%byte) pending_bytes
     <> Ok 0x1234.
Proof.
  split; [apply send_int_hands_packed_bytes; reflexivity|].
  split; [reflexivity|]. split; [reflexivity|]. split; [reflexivity|].
  split; [reflexivity|]. vm_compute. discriminate.
Qed.

(** ** [send_byte] *)

(** C7, as amended.  [send_byte] dispatches on the type of its argument
    only.  An [int] in 0..255 is written as one byte and a [bytes] object
    of any length is written as it is, both returning [None] on a connected
    handler; an [int] outside 0..255 raises a value error; a value that is
    neither an [int] nor a [bytes] object raises a type error.  The two
    errors leave the instance as it was. *)
Theorem send_byte_dispatches_on_type (self : MockHandler) (val : pyval) :
  (forall z, Py.isinstance_int val = Some z -> 0 <= z <= 255 ->
     exists b,
       Py.int_of_byte b = z
       /\ send_byte val self = (write [b] ;; ret tt) self)
  /\ (forall z, Py.isinstance_int val = Some z -> z < 0 \/ 255 < z ->
     send_byte val self = (Raise ValueError, self))
  /\ (forall b, val = PyBytes b ->
     send_byte val self = (write b ;; ret tt) self)
  /\ (Py.isinstance_int val = None -> Py.isinstance_bytes val = None ->
     exists msg, send_byte val self = (Raise (TypeError msg), self))
  /\ (forall data, connected self = true ->
     outcome (write data ;; ret tt) self = Ok tt).
Proof.
  split; [|split; [|split; [|split]]].
  - intros z Hi Hz. destruct (byte_of_int_Some z Hz) as (b & Hb & Hv).
    exists b. split; [exact Hv|].
    unfold send_byte. rewrite Hi. unfold Py.bytes_of_int. rewrite Hb.
    reflexivity.
  - intros z Hi Hz. unfold send_byte. rewrite Hi.
    unfold Py.bytes_of_int. rewrite (byte_of_int_None z Hz). reflexivity.
  - intros b ->. reflexivity.
  - intros Hi Hb. unfold send_byte. rewrite Hi, Hb.
    eexists. reflexivity.
  - intros data Hc. unfold outcome, bind.
    destruct (write_connected data self Hc) as (buf & lg & ->).
    reflexivity.
Qed.

Lemma send_byte_dispatches_on_type_witness :
  (exists b,
      Py.int_of_byte b = 65
      /\ send_byte (PyInt 65) opened = (write [b] ;; ret tt) opened)
  /\ send_byte (PyInt (-1)) opened = (Raise ValueError, opened)
  /\ (exists msg,
        send_byte (PyStr "A") opened = (Raise (TypeError msg), opened)).
Proof.
  destruct (send_byte_dispatches_on_type opened (PyInt 65))
    as (Hin & _).
  destruct (send_byte_dispatches_on_type opened (PyInt (-1)))
    as (_ & Hout & _).
  destruct (send_byte_dispatches_on_type opened (PyStr "A"))
    as (_ & _ & _ & Hty & _).
  split; [|split].
  - apply (Hin 65); [reflexivity | lia].
  - apply (Hout (-1)); [reflexivity | lia].
  - apply Hty; reflexivity.
Defined.

(** C7 as stated fails: an out-of-range [int] raises a value error, not a
    type error, and a two-byte [bytes] object is accepted and written
    whole. *)
Lemma send_byte_accepts_more_than_one_byte :
  outcome (send_byte (PyInt 256)) opened = Raise ValueError
  /\ outcome (send_byte (PyBytes ["001"; "002"]%byte)) opened = Ok tt
  /\ logger (after (send_byte (PyBytes ["001"; "002"]%byte)) opened)
     = logger opened ++ [Debug_unmapped_write ["001"; "002"]%byte]
  /\ (forall msg,
        outcome (send_byte (PyInt 256)) opened <> Raise (TypeError msg))
  /\ (forall msg,
        outcome (send_byte (PyBytes ["001"; "002"]%byte)) opened
        <> Raise (TypeError msg)).
Proof.
  split; [reflexivity|]. split; [reflexivity|]. split; [reflexivity|].
  split; intros msg; vm_compute; discriminate.
Qed.

(** ** [open] *)

(** C8, as amended.  [open] always succeeds and connects.  A non-empty
    identifier replaces the stored one; with no identifier, or with the
    empty string, the stored one is kept.  The response table and the read
    buffer are untouched, and opening again changes nothing but the
    identifier (and the log). *)
Theorem open_connects_and_sets_port (self : MockHandler)
    (p : option string) :
  outcome (open p) self = Ok tt
  /\ connected (after (open p) self) = true
  /\ (forall id, p = Some id -> id <> EmptyString ->
      port (after (open p) self) = id)
  /\ (p = None \/ p = Some EmptyString ->
      port (after (open p) self) = port self)
  /\ response_map (after (open p) self) = response_map self
  /\ read_buffer (after (open p) self) = read_buffer self
  /\ (forall q,
      connected (after (open q) (after (open p) self))
        = connected (after (open p) self)
      /\ response_map (after (open q) (after (open p) self))
        = response_map (after (open p) self)
      /\ read_buffer (after (open q) (after (open p) self))
        = read_buffer (after (open p) self)
      /\ (Py.truthy q = false ->
          port (after (open q) (after (open p) self))
            = port (after (open p) self)))
  /\ port (after (open p) (after (open p) self)) = port (after (open p) self).
Proof.
  destruct self as [c id0 m buf lg]. unfold outcome, after.
  destruct p as [[|a s]|]; cbn;
    (split; [reflexivity|]); (split; [reflexivity|]);
    (split; [intros id E Hne; inversion E; subst; congruence|]);
    (split; [intros [E|E]; try discriminate E; reflexivity|]);
    (split; [reflexivity|]); (split; [reflexivity|]);
    (split; [|reflexivity]);
    intros [[|b t]|]; cbn; repeat split; discriminate.
Qed.

Lemma open_connects_and_sets_port_witness :
  port (after (open (Some "COM3"%string)) (__init__ None)) = "COM3"%string
  /\ port (after (open None) (__init__ None)) = "MOCK_PORT"%string.
Proof.
  destruct (open_connects_and_sets_port (__init__ None) (Some "COM3"%string))
    as (_ & _ & Hset & _).
  destruct (open_connects_and_sets_port (__init__ None) None)
    as (_ & _ & _ & Hkeep & _).
  split.
  - apply Hset; [reflexivity | discriminate].
  - rewrite Hkeep; [reflexivity | left; reflexivity].
Defined.

(** C8 as stated fails: an identifier that is supplied but empty does not
    replace the stored one. *)
Lemma open_ignores_empty_identifier :
  let self := __init__ (Some "COM1"%string) in
  port self = "COM1"%string
  /\ port (after (open (Some EmptyString)) self) = "COM1"%string
  /\ port (after (open (Some EmptyString)) self) <> EmptyString.
Proof.
  cbv zeta. split; [reflexivity|]. split; [reflexivity|].
  vm_compute. discriminate.
Qed.

(** ** The response table *)

Section ResponseMapFrame.

Variable self : MockHandler.

Lemma write_keeps_response_map data :
  response_map (after (write data) self) = response_map self.
Proof.
  unfold after. destruct (connected self) eqn:Hc.
  - destruct (write_connected data self Hc) as (buf & lg & ->).
    reflexivity.
  - rewrite write_disconnected by exact Hc. reflexivity.
Qed.

Lemma read_keeps_response_map size :
  response_map (after (read size) self) = response_map self.
Proof.
  unfold after. destruct (connected self) eqn:Hc.
  - destruct (Z.lt_ge_cases (Py.len (read_buffer self)) size).
    + rewrite read_short by assumption. reflexivity.
    + rewrite read_full by assumption. reflexivity.
  - rewrite read_disconnected by exact Hc. reflexivity.
Qed.

(** Sequencing after a method that keeps the table keeps the table when
    the continuation does. *)
Lemma bind_keeps_response_map {A B} (m : M A) (k : A -> M B) :
  response_map (after m self) = response_map self ->
  (forall a self', response_map (after (k a) self') = response_map self') ->
  response_map (after (bind m k) self) = response_map self.
Proof.
  intros Hm Hk. unfold after, bind in *.
  destruct (m self) as [[a|e] self']; cbn [snd] in *.
  - rewrite <- Hm. apply Hk.
  - exact Hm.
Qed.

End ResponseMapFrame.

Lemma ret_keeps_response_map {A} (a : A) self :
  response_map (after (ret a) self) = response_map self.
Proof. reflexivity. Qed.

Lemma send_byte_keeps_response_map val self :
  response_map (after (send_byte val) self) = response_map self.
Proof.
  unfold send_byte.
  destruct (Py.isinstance_int val) as [z|].
  - unfold Py.bytes_of_int. destruct (Py.byte_of_int z) as [b|].
    + apply bind_keeps_response_map; [reflexivity|]. intros a self'.
      apply bind_keeps_response_map;
        [apply write_keeps_response_map | reflexivity].
    + reflexivity.
  - destruct (Py.isinstance_bytes val) as [b|]; [|reflexivity].
    apply bind_keeps_response_map;
      [apply write_keeps_response_map | reflexivity].
Qed.

Lemma send_int_keeps_response_map val self :
  response_map (after (send_int val) self) = response_map self.
Proof.
  unfold send_int. destruct (Py.pack_H val) as [b|e]; [|reflexivity].
  apply bind_keeps_response_map; [reflexivity|]. intros a self'.
  apply bind_keeps_response_map;
    [apply write_keeps_response_map | reflexivity].
Qed.

Lemma read_byte_keeps_response_map self :
  response_map (after read_byte self) = response_map self.
Proof.
  unfold read_byte.
  apply bind_keeps_response_map; [apply read_keeps_response_map|].
  intros [|b data] self'; reflexivity.
Qed.

Lemma read_int_keeps_response_map self :
  response_map (after read_int self) = response_map self.
Proof.
  unfold read_int.
  apply bind_keeps_response_map; [apply read_keeps_response_map|].
  intros data self'. destruct (Py.len data <? 2); reflexivity.
Qed.

Lemma exec_keeps_response_map (c : call) (self : MockHandler) :
  is_register_response c = false ->
  response_map (after (exec c) self) = response_map self.
Proof.
  intros Hc.
  destruct c as [p| | | | | | | | | | |]; try discriminate Hc; cbn [exec];
    apply bind_keeps_response_map; try (intros; reflexivity).
  - destruct self as [c q m buf lg]. destruct p as [[|a s]|]; reflexivity.
  - apply write_keeps_response_map.
  - apply read_keeps_response_map.
  - apply send_byte_keeps_response_map.
  - apply send_int_keeps_response_map.
  - apply read_byte_keeps_response_map.
  - apply read_int_keeps_response_map.
Qed.

(** A whole script without [register_response] keeps the table. *)
Lemma run_keeps_response_map (cs : list call) (self : MockHandler) :
  forallb (fun c => negb (is_register_response c)) cs = true ->
  response_map (run cs self) = response_map self.
Proof.
  revert self. induction cs as [|c cs IH]; intros self H; cbn in *.
  - reflexivity.
  - apply andb_true_iff in H. destruct H as [Hc Hcs].
    rewrite IH by exact Hcs.
    apply exec_keeps_response_map. destruct (is_register_response c);
      [discriminate Hc | reflexivity].
Qed.

(** C10.  Every call other than [register_response] (that is [open],
    [close], [write], [read], [clear_buffer], [send_byte], [send_int],
    [read_byte], [read_int], [get_ack] and [inject_data]) leaves the
    response table as it was, whether the call returns or raises. *)
Theorem only_register_response_changes_response_map
    (c : call) (self : MockHandler) :
  is_register_response c = false ->
  response_map (after (exec c) self) = response_map self
  /\ (forall e, outcome (exec c) self = Raise e ->
      response_map (after (exec c) self) = response_map self).
Proof.
  intros Hc. split; [|intros e _]; apply exec_keeps_response_map; exact Hc.
Qed.

Lemma only_register_response_changes_response_map_witness :
  is_register_response (SendByte (PyInt 256)) = false
  /\ outcome (exec (SendByte (PyInt 256))) nested_prefixes = Raise ValueError
  /\ response_map (after (exec (SendByte (PyInt 256))) nested_prefixes)
     = response_map nested_prefixes.
Proof.
  split; [reflexivity|]. split; [reflexivity|].
  exact (proj1 (only_register_response_changes_response_map
                  (SendByte (PyInt 256)) nested_prefixes eq_refl)).
Defined.

(** [register_response] is the one that does change it: the pair is in
    the table afterwards, and the keys stay distinct. *)
Lemma dict_set_In (d : list (bytes * bytes)) (k v : bytes) :
  In (k, v) (Py.dict_set d k v).
Proof.
  induction d as [|[k' v'] d IH]; cbn.
  - left. reflexivity.
  - destruct (Py.bytes_eqb k' k) eqn:E.
    + apply bytes_eqb_true_iff in E. subst. left. reflexivity.
    + right. exact IH.
Qed.

Lemma dict_set_keys (d : list (bytes * bytes)) (k v : bytes) :
  forall k', In k' (map fst (Py.dict_set d k v)) <->
             k' = k \/ In k' (map fst d).
Proof.
  induction d as [|[k0 v0] d IH]; intros k'; cbn.
  - intuition congruence.
  - destruct (Py.bytes_eqb k0 k) eqn:E; cbn.
    + apply bytes_eqb_true_iff in E. subst. intuition congruence.
    + rewrite IH. intuition congruence.
Qed.

Lemma dict_set_NoDup (d : list (bytes * bytes)) (k v : bytes) :
  NoDup (map fst d) -> NoDup (map fst (Py.dict_set d k v)).
Proof.
  induction d as [|[k0 v0] d IH]; intros H; cbn.
  - constructor; [intros []|constructor].
  - inversion H as [|? ? Hnot Hd]; subst.
    destruct (Py.bytes_eqb k0 k) eqn:E; cbn.
    + constructor; assumption.
    + constructor; [|apply IH; exact Hd].
      rewrite dict_set_keys. intros [->|Hin]; [|contradiction].
      assert (Py.bytes_eqb k k = true) by (apply bytes_eqb_true_iff; reflexivity).
      congruence.
Qed.

Lemma exec_keeps_keys_distinct (c : call) (self : MockHandler) :
  NoDup (map fst (response_map self)) ->
  NoDup (map fst (response_map (after (exec c) self))).
Proof.
  intros H. destruct (is_register_response c) eqn:E.
  - destruct c; try discriminate E.
    destruct self as [cn q m buf lg]. cbn in *.
    apply dict_set_NoDup. exact H.
  - rewrite exec_keeps_response_map by exact E. exact H.
Qed.

(** Every instance a script can produce has a table with distinct keys. *)
Lemma run_keeps_keys_distinct (cs : list call) (self : MockHandler) :
  NoDup (map fst (response_map self)) ->
  NoDup (map fst (response_map (run cs self))).
Proof.
  revert self. induction cs as [|c cs IH]; intros self H; cbn.
  - exact H.
  - apply IH. apply exec_keeps_keys_distinct. exact H.
Qed.

(** * Further properties of the methods *)

(** ** Reading *)

Lemma firstn_add {A} (a b : nat) (l : list A) :
  firstn (a + b) l = firstn a l ++ firstn b (skipn a l).
Proof.
  revert l. induction a as [|a IH]; intros [|x l]; cbn.
  - reflexivity.
  - reflexivity.
  - now rewrite firstn_nil.
  - now rewrite IH.
Qed.

(** [read] with a size that is not negative, in one equation: the short
    read is the case where taking [size] bytes takes them all. *)
Lemma read_nonneg size self :
  connected self = true ->
  0 <= size ->
  read size self =
    (Ok (firstn (Z.to_nat size) (read_buffer self)),
     mkMockHandler (connected self) (port self) (response_map self)
                   (skipn (Z.to_nat size) (read_buffer self))
                   (if Py.len (read_buffer self) <? size
                    then logger self
                           ++ [Warning_short_read size
                                 (Py.len (read_buffer self))]
                    else logger self)).
Proof.
  intros Hc Hs.
  destruct (Z.ltb_spec (Py.len (read_buffer self)) size) as [Hlt|Hge].
  - rewrite read_short by assumption.
    rewrite firstn_all2, skipn_all2 by (unfold Py.len in Hlt; lia).
    reflexivity.
  - rewrite read_full by assumption.
    unfold Py.slice_to, Py.slice_from.
    rewrite slice_index_in_range by lia. reflexivity.
Qed.

(** X1. Two reads in a row return, together, what one read of the summed
    size returns, and leave the same buffer behind. *)
Theorem read_twice_is_read_sum (self : MockHandler) (n m : Z) :
  connected self = true ->
  0 <= n ->
  0 <= m ->
  exists d1 d2,
    outcome (read n) self = Ok d1
    /\ outcome (read m) (after (read n) self) = Ok d2
    /\ outcome (read (n + m)) self = Ok (d1 ++ d2)
    /\ read_buffer (after (read m) (after (read n) self))
       = read_buffer (after (read (n + m)) self).
Proof.
  intros Hc Hn Hm. unfold outcome, after.
  rewrite (read_nonneg n self) by assumption. cbn [fst snd].
  rewrite (read_nonneg m) by (cbn [connected]; assumption).
  rewrite (read_nonneg (n + m) self) by (try assumption; lia).
  cbn [fst snd read_buffer].
  exists (firstn (Z.to_nat n) (read_buffer self)),
         (firstn (Z.to_nat m) (skipn (Z.to_nat n) (read_buffer self))).
  rewrite Z2Nat.inj_add by assumption.
  rewrite firstn_add, skipn_skipn.
  rewrite (Nat.add_comm (Z.to_nat m) (Z.to_nat n)).
  repeat split.
Qed.

Lemma read_twice_is_read_sum_witness :
  let self :=
    run [Open None; InjectData ["001"; "002"; "003"]%byte] (__init__ None) in
  connected self = true
  /\ exists d1 d2,
       outcome (read 1) self = Ok d1
       /\ outcome (read 5) (after (read 1) self) = Ok d2
       /\ outcome (read (1 + 5)) self = Ok (d1 ++ d2)
       /\ read_buffer (after (read 5) (after (read 1) self))
          = read_buffer (after (read (1 + 5)) self).
Proof.
  intros self.
  assert (Hc : connected self = true) by reflexivity.
  split; [exact Hc|].
  apply (read_twice_is_read_sum self 1 5 Hc); lia.
Defined.

(** X2. [inject_data] never raises, connected or not, and queues behind
    what is already buffered: the old bytes are read first and the
    injected ones are then exactly what is left. *)
Theorem inject_data_queues_behind_buffer (self : MockHandler) (d : bytes) :
  outcome (inject_data d) self = Ok tt
  /\ read_buffer (after (inject_data d) self) = read_buffer self ++ d
  /\ (connected self = true ->
      outcome (read (Py.len (read_buffer self))) (after (inject_data d) self)
        = Ok (read_buffer self)
      /\ read_buffer (after (read (Py.len (read_buffer self)))
                            (after (inject_data d) self)) = d
      /\ outcome (read (Py.len (read_buffer self) + Py.len d))
                 (after (inject_data d) self)
         = Ok (read_buffer self ++ d)).
Proof.
  destruct self as [c p m buf lg]. unfold outcome, after.
  unfold inject_data. step_method.
  split; [reflexivity|]. split; [reflexivity|].
  intros ->.
  rewrite !read_nonneg
    by (try reflexivity; pose proof (len_nonneg buf);
        pose proof (len_nonneg d); lia).
  cbn [fst snd read_buffer]. unfold Py.len.
  rewrite <- Nat2Z.inj_add, !Nat2Z.id.
  rewrite firstn_app, skipn_app, Nat.sub_diag, firstn_all, skipn_all.
  cbn [firstn skipn app]. rewrite app_nil_r.
  rewrite <- length_app, firstn_all.
  repeat split.
Qed.

Lemma inject_data_queues_behind_buffer_witness :
  outcome (read (Py.len (read_buffer pending_bytes)))
          (after (inject_data ["052"; "018"]%byte) pending_bytes)
    = Ok (read_buffer pending_bytes)
  /\ read_buffer (after (read (Py.len (read_buffer pending_bytes)))
                        (after (inject_data ["052"; "018"]%byte)
                               pending_bytes))
     = ["052"; "018"]%byte.
Proof.
  destruct (inject_data_queues_behind_buffer pending_bytes
              ["052"; "018"]%byte) as (_ & _ & H).
  destruct (H eq_refl) as (H1 & H2 & _).
  split; [exact H1 | exact H2].
Defined.

(** X3. A negative size is not refused: [read] then returns the buffer
    without its last [-size] bytes, keeps those last bytes buffered, and
    logs no warning. *)
Theorem read_negative_size_leaves_tail (self : MockHandler) (size : Z) :
  connected self = true ->
  size < 0 ->
  exists data,
    outcome (read size) self = Ok data
    /\ read_buffer self = data ++ read_buffer (after (read size) self)
    /\ Py.len (read_buffer (after (read size) self))
       = Z.min (Py.len (read_buffer self)) (- size)
    /\ logger (after (read size) self) = logger self.
Proof.
  intros Hc Hs. unfold outcome, after.
  pose proof (len_nonneg (read_buffer self)) as Hl.
  rewrite read_full by (try assumption; lia).
  cbn [fst snd read_buffer logger].
  exists (Py.slice_to (read_buffer self) size).
  unfold Py.slice_to, Py.slice_from, Py.slice_index.
  destruct (Z.ltb_spec size 0); [|lia].
  split; [reflexivity|]. split; [symmetry; apply firstn_skipn|].
  split; [|reflexivity].
  unfold Py.len in *. rewrite length_skipn. lia.
Qed.

Lemma read_negative_size_leaves_tail_witness :
  let self :=
    run [Open None; InjectData ["001"; "002"; "003"]%byte] (__init__ None) in
  connected self = true
  /\ exists data,
       outcome (read (-2)) self = Ok data
       /\ read_buffer self = data ++ read_buffer (after (read (-2)) self)
       /\ Py.len (read_buffer (after (read (-2)) self))
          = Z.min (Py.len (read_buffer self)) (- (-2))
       /\ logger (after (read (-2)) self) = logger self.
Proof.
  intros self.
  assert (Hc : connected self = true) by reflexivity.
  split; [exact Hc|].
  apply (read_negative_size_leaves_tail self (-2) Hc). lia.
Defined.

(** ** The typed readers *)

(** X4. On a connected handler [read_byte] never raises and returns a
    value in 0..255.  With bytes buffered it returns the first one and
    removes only it; on an empty buffer it returns 0, as it does for a
    buffered zero byte, and the short read is logged. *)
Theorem read_byte_pops_first_byte (self : MockHandler) :
  connected self = true ->
  (exists v, outcome read_byte self = Ok v /\ 0 <= v <= 255)
  /\ (forall b rest,
        read_buffer self = b :: rest ->
        outcome read_byte self = Ok (Py.int_of_byte b)
        /\ read_buffer (after read_byte self) = rest
        /\ logger (after read_byte self) = logger self)
  /\ (read_buffer self = [] ->
        outcome read_byte self = Ok 0
        /\ read_buffer (after read_byte self) = []
        /\ logger (after read_byte self)
           = logger self ++ [Warning_short_read 1 0]).
Proof.
  intros Hc. unfold outcome, after, read_byte, bind.
  rewrite read_nonneg by (try assumption; lia).
  destruct self as [c p m [|b rest] lg];
    cbn [connected port response_map read_buffer logger] in *.
  - split; [exists 0; split; [reflexivity | lia]|].
    split; [intros b rest E; discriminate E|].
    intros _. repeat split.
  - change (firstn (Z.to_nat 1) (b :: rest)) with [b].
    change (skipn (Z.to_nat 1) (b :: rest)) with rest.
    assert (Hlen : (Py.len (b :: rest) <? 1) = false).
    { apply Z.ltb_ge. unfold Py.len. cbn [List.length]. lia. }
    rewrite Hlen. cbn [fst snd read_buffer logger ret].
    split; [exists (Py.int_of_byte b);
            split; [reflexivity | apply int_of_byte_range]|].
    split; [|intros E; discriminate E].
    intros b' rest' E. inversion E; subst. repeat split.
Qed.

Lemma read_byte_pops_first_byte_witness :
  outcome read_byte pending_bytes = Ok 1
  /\ read_buffer (after read_byte pending_bytes) = ["000"]%byte.
Proof.
  destruct (read_byte_pops_first_byte pending_bytes eq_refl)
    as (_ & H & _).
  destruct (H "001"%byte ["000"]%byte eq_refl) as (H1 & H2 & _).
  split; [exact H1 | exact H2].
Defined.

(** X5. On a connected handler [read_int] never raises and returns a
    value in 0..65535.  With at least two bytes buffered it removes the
    first two and returns the first plus 256 times the second. *)
Theorem read_int_decodes_little_endian (self : MockHandler) :
  connected self = true ->
  (exists v, outcome read_int self = Ok v /\ 0 <= v <= 65535)
  /\ (forall lo hi rest,
        read_buffer self = lo :: hi :: rest ->
        outcome read_int self
          = Ok (Py.int_of_byte lo + 256 * Py.int_of_byte hi)
        /\ read_buffer (after read_int self) = rest
        /\ logger (after read_int self) = logger self).
Proof.
  intros Hc.
  assert (Hfull : forall lo hi rest,
             read_buffer self = lo :: hi :: rest ->
             read_int self =
               (Ok (Py.int_of_byte lo + 256 * Py.int_of_byte hi),
                mkMockHandler (connected self) (port self)
                              (response_map self) rest (logger self))).
  { intros lo hi rest E. unfold read_int, bind.
    rewrite read_nonneg by (try assumption; lia). rewrite E.
    change (firstn (Z.to_nat 2) (lo :: hi :: rest)) with [lo; hi].
    change (skipn (Z.to_nat 2) (lo :: hi :: rest)) with rest.
    assert (Hlen : (Py.len (lo :: hi :: rest) <? 2) = false).
    { apply Z.ltb_ge. unfold Py.len. cbn [List.length]. lia. }
    rewrite Hlen. reflexivity. }
  unfold outcome, after. split.
  - destruct (read_buffer self) as [|lo [|hi rest]] eqn:E.
    + exists 0. split; [|lia]. unfold read_int, bind.
      rewrite read_short by (try assumption; rewrite E; reflexivity).
      rewrite E. reflexivity.
    + exists 0. split; [|lia]. unfold read_int, bind.
      rewrite read_short by (try assumption; rewrite E; reflexivity).
      rewrite E. reflexivity.
    + rewrite (Hfull lo hi rest eq_refl). eexists. split; [reflexivity|].
      pose proof (int_of_byte_range lo). pose proof (int_of_byte_range hi).
      lia.
  - intros lo hi rest E. rewrite (Hfull lo hi rest E). repeat split.
Qed.

Lemma read_int_decodes_little_endian_witness :
  let self :=
    run [Open None; InjectData ["052"; "018"; "255"]%byte] (__init__ None) in
  outcome read_int self = Ok 0x1234
  /\ read_buffer (after read_int self) = ["255"]%byte.
Proof.
  intros self.
  destruct (read_int_decodes_little_endian self eq_refl) as (_ & H).
  destruct (H "052"%byte "018"%byte ["255"]%byte eq_refl) as (H1 & H2 & _).
  split; [exact H1 | exact H2].
Defined.

(** ** Errors *)

Lemma pack_H_bytes (val : Z) :
  0 <= val <= 65535 ->
  exists lo hi,
    Py.pack_H val = Ok [lo; hi]
    /\ Py.int_of_byte lo = val mod 256
    /\ Py.int_of_byte hi = val / 256.
Proof.
  intros H. unfold Py.pack_H.
  destruct (Z.leb_spec 0 val); [|lia]. destruct (Z.leb_spec val 65535); [|lia].
  cbn [andb].
  destruct (byte_of_int_Some (val mod 256)) as (lo & -> & Elo).
  { pose proof (Z.mod_pos_bound val 256). lia. }
  destruct (byte_of_int_Some (val / 256)) as (hi & -> & Ehi).
  { assert (0 <= val / 256) by (apply Z.div_pos; lia).
    assert (val / 256 < 256) by (apply Z.div_lt_upper_bound; lia). lia. }
  exists lo, hi. repeat split; assumption.
Qed.

Lemma pack_H_out_of_range (val : Z) :
  val < 0 \/ 65535 < val -> Py.pack_H val = Raise StructError.
Proof.
  intros H. unfold Py.pack_H.
  destruct (Z.leb_spec 0 val); [|reflexivity].
  destruct (Z.leb_spec val 65535); [lia|reflexivity].
Qed.

(** X6. [send_int] packs before it writes: a value outside 0..65535
    raises [struct.error] and changes nothing, even on a closed handler;
    a value inside is handed to [write] as its low byte then its high
    byte. *)
Theorem send_int_packs_before_writing (self : MockHandler) (val : Z) :
  (val < 0 \/ 65535 < val ->
     send_int val self = (Raise StructError, self))
  /\ (0 <= val <= 65535 ->
      exists lo hi,
        Py.int_of_byte lo = val mod 256
        /\ Py.int_of_byte hi = val / 256
        /\ send_int val self = (write [lo; hi] ;; ret tt) self).
Proof.
  split.
  - intros H. unfold send_int, bind, lift.
    rewrite pack_H_out_of_range by exact H. reflexivity.
  - intros H. destruct (pack_H_bytes val H) as (lo & hi & Hp & Hlo & Hhi).
    exists lo, hi. split; [exact Hlo|]. split; [exact Hhi|].
    unfold send_int. unfold bind at 1. unfold lift. rewrite Hp. reflexivity.
Qed.

Lemma send_int_packs_before_writing_witness :
  send_int 65536 (__init__ None) = (Raise StructError, __init__ None)
  /\ exists lo hi,
       Py.int_of_byte lo = 0x1234 mod 256
       /\ Py.int_of_byte hi = 0x1234 / 256
       /\ send_int 0x1234 opened = (write [lo; hi] ;; ret tt) opened.
Proof.
  split.
  - apply (proj1 (send_int_packs_before_writing (__init__ None) 65536)). lia.
  - apply (proj2 (send_int_packs_before_writing opened 0x1234)). lia.
Defined.

(** What a call through [write] or [read] does, by connection state. *)
Lemma write_then_none_cases (b : bytes) (self : MockHandler) :
  (connected self = true
   /\ exists buf lg,
        (write b ;; ret tt) self =
          (Ok tt,
           mkMockHandler (connected self) (port self) (response_map self)
                         buf lg))
  \/ (connected self = false
      /\ (write b ;; ret tt) self =
           (Raise (RuntimeError "Attempted to write to closed MockHandler."),
            self)).
Proof.
  destruct (connected self) eqn:Hc; [left | right]; (split; [reflexivity|]).
  - destruct (write_connected b self Hc) as (buf & lg & E).
    exists buf, lg. unfold bind. rewrite E, Hc. reflexivity.
  - unfold bind. rewrite write_disconnected by exact Hc. reflexivity.
Qed.

Lemma read_byte_cases (self : MockHandler) :
  (connected self = true
   /\ exists v buf lg,
        read_byte self =
          (Ok v,
           mkMockHandler (connected self) (port self) (response_map self)
                         buf lg))
  \/ (connected self = false
      /\ read_byte self =
           (Raise (RuntimeError "Attempted to read from closed MockHandler."),
            self)).
Proof.
  destruct (connected self) eqn:Hc; [left | right]; (split; [reflexivity|]).
  - unfold read_byte, bind. rewrite read_nonneg by (try assumption; lia).
    rewrite Hc.
    destruct (firstn (Z.to_nat 1) (read_buffer self));
      do 3 eexists; unfold ret; reflexivity.
  - unfold read_byte, bind. rewrite read_disconnected by exact Hc.
    reflexivity.
Qed.

Lemma read_int_cases (self : MockHandler) :
  (connected self = true
   /\ exists v buf lg,
        read_int self =
          (Ok v,
           mkMockHandler (connected self) (port self) (response_map self)
                         buf lg))
  \/ (connected self = false
      /\ read_int self =
           (Raise (RuntimeError "Attempted to read from closed MockHandler."),
            self)).
Proof.
  destruct (connected self) eqn:Hc; [left | right]; (split; [reflexivity|]).
  - unfold read_int, bind. rewrite read_nonneg by (try assumption; lia).
    rewrite Hc.
    destruct (read_buffer self) as [|lo [|hi rest]];
      do 3 eexists; reflexivity.
  - unfold read_int, bind. rewrite read_disconnected by exact Hc.
    reflexivity.
Qed.

Lemma read_cases (size : Z) (self : MockHandler) :
  (connected self = true
   /\ exists data buf lg,
        read size self =
          (Ok data,
           mkMockHandler (connected self) (port self) (response_map self)
                         buf lg))
  \/ (connected self = false
      /\ read size self =
           (Raise (RuntimeError "Attempted to read from closed MockHandler."),
            self)).
Proof.
  destruct (connected self) eqn:Hc; [left | right]; (split; [reflexivity|]).
  - destruct (Z.lt_ge_cases (Py.len (read_buffer self)) size).
    + rewrite read_short by assumption. rewrite Hc.
      do 3 eexists; reflexivity.
    + rewrite read_full by assumption. rewrite Hc.
      do 3 eexists; reflexivity.
  - apply read_disconnected. exact Hc.
Qed.

Lemma write_cases (data : bytes) (self : MockHandler) :
  (connected self = true
   /\ exists buf lg,
        write data self =
          (Ok (Py.len data),
           mkMockHandler (connected self) (port self) (response_map self)
                         buf lg))
  \/ (connected self = false
      /\ write data self =
           (Raise (RuntimeError "Attempted to write to closed MockHandler."),
            self)).
Proof.
  destruct (connected self) eqn:Hc; [left | right]; (split; [reflexivity|]).
  - destruct (write_connected data self Hc) as (buf & lg & E).
    rewrite E, Hc. do 2 eexists; reflexivity.
  - apply write_disconnected. exact Hc.
Qed.

Lemma byte_of_int_None_inv (z : Z) :
  Py.byte_of_int z = None -> z < 0 \/ 255 < z.
Proof.
  intros H. destruct (Z.lt_ge_cases z 0); [left; assumption|].
  destruct (Z.lt_ge_cases 255 z); [right; assumption|].
  destruct (byte_of_int_Some z) as (b & E & _); [lia|]. congruence.
Qed.

Lemma pack_H_Raise_inv (val : Z) (e : exn) :
  Py.pack_H val = Raise e -> e = StructError /\ (val < 0 \/ 65535 < val).
Proof.
  intros H. destruct (Z.lt_ge_cases val 0); [|destruct (Z.lt_ge_cases 65535 val)].
  - rewrite pack_H_out_of_range in H by lia. inversion H. split; [reflexivity|lia].
  - rewrite pack_H_out_of_range in H by lia. inversion H. split; [reflexivity|lia].
  - destruct (pack_H_bytes val) as (lo & hi & E & _); [lia|]. congruence.
Qed.

(** Every call either returns, a transfer call only on a connected handler
    and then without touching the configuration, or raises for the reason
    its error states and leaves the instance alone. *)
Lemma exec_cases (c : call) (self : MockHandler) :
  (exists v self',
      exec c self = (Ok v, self')
      /\ (is_transfer c = true ->
          connected self = true /\ same_config self self'))
  \/ (exists e, exec c self = (Raise e, self) /\ raised_for c self e).
Proof.
  destruct c as [p| |data|size| | |val|val| | |command response|data];
    cbn [exec].
  - left. destruct self as [c q m buf lg].
    destruct p as [[|a s]|]; do 2 eexists; (split; [reflexivity|discriminate]).
  - left. do 2 eexists. split; [reflexivity|discriminate].
  - destruct (write_cases data self) as [(Hc & buf & lg & E)|(Hc & E)].
    + left. unfold bind. rewrite E. do 2 eexists.
      split; [reflexivity|]. intros _. split; [exact Hc|]. repeat split.
    + right. unfold bind. rewrite E. eexists.
      split; [reflexivity|]. split; [reflexivity|exact Hc].
  - destruct (read_cases size self) as [(Hc & d & buf & lg & E)|(Hc & E)].
    + left. unfold bind. rewrite E. do 2 eexists.
      split; [reflexivity|]. intros _. split; [exact Hc|]. repeat split.
    + right. unfold bind. rewrite E. eexists.
      split; [reflexivity|]. split; [reflexivity|exact Hc].
  - left. do 2 eexists. split; [reflexivity|discriminate].
  - left. do 2 eexists. split; [reflexivity|discriminate].
  - unfold send_byte.
    destruct (Py.isinstance_int val) as [z|] eqn:Hi.
    + unfold Py.bytes_of_int.
      destruct (Py.byte_of_int z) as [b|] eqn:Hb.
      * change ((b0 <- lift (Ok [b]) ;; write b0 ;; ret tt) ;; ret VNone)
          with (fun s => ((write [b] ;; ret tt) ;; ret VNone) s).
        cbv beta.
        destruct (write_then_none_cases [b] self)
          as [(Hc & buf & lg & E)|(Hc & E)].
        -- left. unfold bind at 1. rewrite E.
           do 2 eexists. split; [reflexivity|]. intros _.
           split; [exact Hc|]. repeat split.
        -- right. unfold bind at 1. rewrite E.
           eexists. split; [reflexivity|].
           split; [reflexivity|exact Hc].
      * right. exists ValueError. split; [reflexivity|].
        exists val, z. split; [reflexivity|]. split; [exact Hi|].
        apply byte_of_int_None_inv. exact Hb.
    + destruct (Py.isinstance_bytes val) as [b|] eqn:Hby.
      * destruct (write_then_none_cases b self)
          as [(Hc & buf & lg & E)|(Hc & E)].
        -- left. unfold bind at 1. rewrite E.
           do 2 eexists. split; [reflexivity|]. intros _.
           split; [exact Hc|]. repeat split.
        -- right. unfold bind at 1. rewrite E.
           eexists. split; [reflexivity|].
           split; [reflexivity|exact Hc].
      * right. eexists. split; [reflexivity|].
        exists val. repeat split; assumption.
  - unfold send_int.
    destruct (Py.pack_H val) as [b|e] eqn:Hp.
    + change ((b0 <- lift (Ok b) ;; write b0 ;; ret tt) ;; ret VNone)
        with (fun s => ((write b ;; ret tt) ;; ret VNone) s).
      cbv beta.
      destruct (write_then_none_cases b self)
        as [(Hc & buf & lg & E)|(Hc & E)].
      * left. unfold bind at 1. rewrite E.
        do 2 eexists. split; [reflexivity|]. intros _.
        split; [exact Hc|]. repeat split.
      * right. unfold bind at 1. rewrite E.
        eexists. split; [reflexivity|].
        split; [reflexivity|exact Hc].
    + right. destruct (pack_H_Raise_inv val e Hp) as [-> Hr].
      exists StructError. split; [reflexivity|].
      exists val. split; [reflexivity|exact Hr].
  - destruct (read_byte_cases self) as [(Hc & v & buf & lg & E)|(Hc & E)].
    + left. unfold bind. rewrite E. do 2 eexists.
      split; [reflexivity|]. intros _. split; [exact Hc|]. repeat split.
    + right. unfold bind. rewrite E. eexists.
      split; [reflexivity|]. split; [reflexivity|exact Hc].
  - destruct (read_int_cases self) as [(Hc & v & buf & lg & E)|(Hc & E)].
    + left. unfold bind. rewrite E. do 2 eexists.
      split; [reflexivity|]. intros _. split; [exact Hc|]. repeat split.
    + right. unfold bind. rewrite E. eexists.
      split; [reflexivity|]. split; [reflexivity|exact Hc].
  - left. do 2 eexists. split; [reflexivity|discriminate].
  - left. do 2 eexists. split; [reflexivity|discriminate].
Qed.

(** X7. Every method is exception safe: whatever call raises, and
    whichever error, the instance is afterwards exactly as before. *)
Theorem every_call_is_exception_safe (c : call) :
  exception_safe (exec c).
Proof.
  intros self e H. unfold outcome, after in *.
  destruct (exec_cases c self) as [(v & s' & E & _)|(e' & E & _)];
    rewrite E in *; [discriminate H | reflexivity].
Qed.

Lemma every_call_is_exception_safe_witness :
  outcome (exec (SendByte (PyStr "A"))) pending_bytes
    = Raise (TypeError "send_byte expects int or bytes, got <class 'str'>")
  /\ after (exec (SendByte (PyStr "A"))) pending_bytes = pending_bytes.
Proof.
  assert (H : outcome (exec (SendByte (PyStr "A"))) pending_bytes
              = Raise (TypeError
                         "send_byte expects int or bytes, got <class 'str'>"))
    by reflexivity.
  split; [exact H|].
  exact (every_call_is_exception_safe (SendByte (PyStr "A")) pending_bytes
           _ H).
Defined.

(** X8. The errors have one source each.  The not-connected error is
    raised only by a call that goes through [write] or [read], and only on
    a closed handler; the type error only by [send_byte] on a value that
    is neither [int] nor [bytes]; the value error only by [send_byte] on an
    [int] outside 0..255; [struct.error] only by [send_int] on a value
    outside 0..65535. *)
Theorem errors_have_one_source (c : call) (self : MockHandler) (e : exn) :
  outcome (exec c) self = Raise e -> raised_for c self e.
Proof.
  intros H. unfold outcome in H.
  destruct (exec_cases c self) as [(v & s' & E & _)|(e' & E & Hr)];
    rewrite E in H; [discriminate H|].
  inversion H; subst. exact Hr.
Qed.

Lemma errors_have_one_source_witness :
  outcome (exec (SendInt (-1))) opened = Raise StructError
  /\ raised_for (SendInt (-1)) opened StructError.
Proof.
  assert (H : outcome (exec (SendInt (-1))) opened = Raise StructError)
    by reflexivity.
  split; [exact H|].
  exact (errors_have_one_source (SendInt (-1)) opened StructError H).
Defined.

(** X9. [open], [close], [get_ack], [clear_buffer], [register_response]
    and [inject_data] never raise, on a closed handler no more than on an
    open one. *)
Theorem configuration_calls_never_raise (c : call) :
  is_transfer c = false -> never_raises (exec c).
Proof.
  intros Hc self. unfold outcome.
  destruct (exec_cases c self) as [(v & s' & E & _)|(e & E & Hr)].
  - exists v. rewrite E. reflexivity.
  - destruct e; cbn in Hr.
    + destruct Hr as [Ht _]. congruence.
    + destruct Hr as (val & -> & _). discriminate Hc.
    + destruct Hr as (val & z & -> & _). discriminate Hc.
    + destruct Hr as (val & -> & _). discriminate Hc.
Qed.

Lemma configuration_calls_never_raise_witness :
  is_transfer (InjectData ["001"]%byte) = false
  /\ exists v, outcome (exec (InjectData ["001"]%byte)) (__init__ None) = Ok v.
Proof.
  split; [reflexivity|].
  exact (configuration_calls_never_raise (InjectData ["001"]%byte) eq_refl
           (__init__ None)).
Defined.

(** X10. [read_byte] and [read_int] inherit the guard of [read]: they
    raise exactly when the handler is closed, and then the error of
    [read]. *)
Theorem typed_readers_raise_iff_disconnected (self : MockHandler) :
  ((exists e, outcome read_byte self = Raise e) <-> connected self = false)
  /\ ((exists e, outcome read_int self = Raise e) <-> connected self = false)
  /\ (connected self = false ->
      outcome read_byte self
        = Raise (RuntimeError "Attempted to read from closed MockHandler.")
      /\ outcome read_int self
         = Raise (RuntimeError "Attempted to read from closed MockHandler.")).
Proof.
  unfold outcome.
  destruct (read_byte_cases self) as [(Hc & v & b & l & E)|(Hc & E)];
    destruct (read_int_cases self) as [(Hc' & v' & b' & l' & E')|(Hc' & E')];
    try congruence; rewrite E, E'; cbn [fst].
  - split; [|split]; try congruence;
      (split; [intros [e H]; discriminate H | congruence]).
  - split; [|split].
    + split; [intros _; exact Hc | intros _; eexists; reflexivity].
    + split; [intros _; exact Hc | intros _; eexists; reflexivity].
    + intros _. split; reflexivity.
Qed.

Lemma typed_readers_raise_iff_disconnected_witness :
  connected (__init__ None) = false
  /\ (exists e, outcome read_byte (__init__ None) = Raise e)
  /\ (exists e, outcome read_int (__init__ None) = Raise e).
Proof.
  assert (Hd : connected (__init__ None) = false) by reflexivity.
  destruct (typed_readers_raise_iff_disconnected (__init__ None))
    as (Hb & Hi & _).
  split; [exact Hd|]. split.
  - apply (proj2 Hb). exact Hd.
  - apply (proj2 Hi). exact Hd.
Defined.

(** ** What changes the configuration *)

Lemma exec_keeps_port_and_connection (c : call) (self : MockHandler) :
  is_open c = false ->
  port (after (exec c) self) = port self
  /\ (is_close c = false ->
      connected (after (exec c) self) = connected self).
Proof.
  intros Ho. unfold after.
  destruct (is_transfer c) eqn:Ht.
  - destruct (exec_cases c self) as [(v & s' & E & H)|(e & E & _)];
      rewrite E; cbn [snd].
    + destruct (H Ht) as (_ & Hcn & Hp & _). split; [exact Hp|].
      intros _. exact Hcn.
    + split; [reflexivity|]. intros _. reflexivity.
  - destruct c; try discriminate Ht; try discriminate Ho;
      destruct self as [cn q m buf lg];
      (split; [reflexivity|]); intros Hcl; try discriminate Hcl;
      reflexivity.
Qed.

(** X11. The connection flag is changed by [open] and [close] only, and
    the stored port by [open] only, whether the call returns or raises. *)
Theorem only_open_and_close_change_connection
    (c : call) (self : MockHandler) :
  is_open c = false ->
  port (after (exec c) self) = port self
  /\ (is_close c = false ->
      connected (after (exec c) self) = connected self).
Proof.
  apply exec_keeps_port_and_connection.
Qed.

Lemma only_open_and_close_change_connection_witness :
  is_open (Write ["001"; "002"]%byte) = false
  /\ port (after (exec (Write ["001"; "002"]%byte)) nested_prefixes)
     = port nested_prefixes
  /\ connected (after (exec (Write ["001"; "002"]%byte)) nested_prefixes)
     = connected nested_prefixes.
Proof.
  destruct (only_open_and_close_change_connection
              (Write ["001"; "002"]%byte) nested_prefixes eq_refl)
    as [Hp Hc].
  split; [reflexivity|]. split; [exact Hp|]. apply Hc. reflexivity.
Defined.

(** ** Registering responses *)

Lemma bytes_eqb_refl (k : bytes) : Py.bytes_eqb k k = true.
Proof. apply bytes_eqb_true_iff. reflexivity. Qed.

Lemma bytes_eqb_false_iff (a b : bytes) : Py.bytes_eqb a b = false <-> a <> b.
Proof.
  destruct (Py.bytes_eqb a b) eqn:E.
  - apply bytes_eqb_true_iff in E. split; [discriminate | congruence].
  - split; [|reflexivity]. intros _ H. apply bytes_eqb_true_iff in H.
    congruence.
Qed.

Lemma register_response_eq (k r : bytes) (self : MockHandler) :
  register_response k r self =
    (Ok tt,
     mkMockHandler (connected self) (port self)
                   (Py.dict_set (response_map self) k r)
                   (read_buffer self) (logger self)).
Proof. reflexivity. Qed.

(** The scan of a table in which [k] has just been set to [r], when [k]
    is the only key that can match. *)
Lemma write_scan_dict_set (d k r : bytes) (items : list (bytes * bytes))
    (self : MockHandler) :
  Py.startswith d k = true ->
  (forall k' r', In (k', r') items -> k' <> k -> Py.startswith d k' = false) ->
  write_scan d (Py.dict_set items k r) self =
    (Ok true,
     mkMockHandler (connected self) (port self) (response_map self)
                   (read_buffer self ++ r) (logger self)).
Proof.
  intros Hk. induction items as [|[k0 r0] items IH]; intros Ho; cbn.
  - rewrite Hk. reflexivity.
  - destruct (Py.bytes_eqb k0 k) eqn:E; cbn.
    + apply bytes_eqb_true_iff in E. subst k0. rewrite Hk. reflexivity.
    + apply bytes_eqb_false_iff in E.
      rewrite (Ho k0 r0) by (try (left; reflexivity); exact E).
      apply IH. intros k' r' Hin. apply (Ho k' r'). right. exact Hin.
Qed.

(** X12. After [register_response(k, r)], a write of data that starts
    with [k], and with no other registered key, gets [r] appended to the
    read buffer, wherever [k] stands in the table and whatever was
    registered for it before. *)
Theorem register_response_then_write
    (self : MockHandler) (k r d : bytes) :
  connected self = true ->
  Py.startswith d k = true ->
  (forall k' r',
      In (k', r') (response_map self) -> k' <> k ->
      Py.startswith d k' = false) ->
  outcome (write d) (after (register_response k r) self) = Ok (Py.len d)
  /\ read_buffer (after (write d) (after (register_response k r) self))
     = read_buffer self ++ r.
Proof.
  intros Hc Hk Ho. unfold outcome, after.
  rewrite register_response_eq. cbn [snd].
  on_fields self. unfold write. step_method.
  rewrite write_scan_dict_set by assumption.
  split; reflexivity.
Qed.

Lemma register_response_then_write_witness :
  let self :=
    run [Open None; RegisterResponse ["001"]%byte ["170"]%byte;
         RegisterResponse ["002"]%byte ["187"]%byte] (__init__ None) in
  read_buffer (after (write ["001"; "002"]%byte)
                     (after (register_response ["001"]%byte ["204"]%byte)
                            self))
  = read_buffer self ++ ["204"]%byte.
Proof.
  intros self.
  apply (register_response_then_write
           self ["001"]%byte ["204"]%byte ["001"; "002"]%byte);
    [reflexivity | reflexivity |].
  intros k' r' [E|[E|[]]] Hne; inversion E; subst;
    [congruence | reflexivity].
Defined.

Lemma dict_set_twice (d : list (bytes * bytes)) (k v1 v2 : bytes) :
  Py.dict_set (Py.dict_set d k v1) k v2 = Py.dict_set d k v2.
Proof.
  induction d as [|[k0 v0] d IH]; cbn.
  - rewrite bytes_eqb_refl. reflexivity.
  - destruct (Py.bytes_eqb k0 k) eqn:E; cbn; rewrite E.
    + reflexivity.
    + rewrite IH. reflexivity.
Qed.

Lemma dict_lookup_unique (d : list (bytes * bytes)) (k v1 v2 : bytes) :
  NoDup (map fst d) -> In (k, v1) d -> In (k, v2) d -> v1 = v2.
Proof.
  induction d as [|[k0 v0] d IH]; cbn; intros Hnd H1 H2.
  - destruct H1.
  - inversion Hnd as [|? ? Hnot Hd]; subst.
    destruct H1 as [E1|H1], H2 as [E2|H2].
    + congruence.
    + inversion E1; subst. exfalso. apply Hnot.
      apply (in_map fst) in H2. exact H2.
    + inversion E2; subst. exfalso. apply Hnot.
      apply (in_map fst) in H1. exact H1.
    + apply IH; assumption.
Qed.

(** X13. Registering a key again replaces its response.  On an instance
    whose table has distinct keys, as every dict has, after
    [register_response(k, r1)] and [register_response(k, r2)] the table
    holds [(k, r2)], holds no other response for [k], still has distinct
    keys, and the instance is the one the second registration alone
    gives. *)
Theorem register_response_last_wins (self : MockHandler) (k r1 r2 : bytes) :
  NoDup (map fst (response_map self)) ->
  In (k, r2)
     (response_map (after (register_response k r2)
                          (after (register_response k r1) self)))
  /\ (forall r,
        In (k, r)
           (response_map (after (register_response k r2)
                                (after (register_response k r1) self))) ->
        r = r2)
  /\ NoDup (map fst
              (response_map (after (register_response k r2)
                                   (after (register_response k r1) self))))
  /\ after (register_response k r2) (after (register_response k r1) self)
     = after (register_response k r2) self.
Proof.
  intros Hnd. unfold after. rewrite !register_response_eq.
  cbn [snd response_map connected port read_buffer logger].
  rewrite dict_set_twice.
  assert (Hnd' : NoDup (map fst (Py.dict_set (response_map self) k r2)))
    by (apply dict_set_NoDup; exact Hnd).
  assert (Hin : In (k, r2) (Py.dict_set (response_map self) k r2))
    by apply dict_set_In.
  assert (Huniq : forall r,
             In (k, r) (Py.dict_set (response_map self) k r2) -> r = r2)
    by (intros r Hr; apply (dict_lookup_unique _ k r r2 Hnd' Hr Hin)).
  split; [exact Hin|]. split; [exact Huniq|].
  split; [exact Hnd'|reflexivity].
Qed.

Lemma register_response_last_wins_witness :
  NoDup (map fst (response_map nested_prefixes))
  /\ In (["001"]%byte, ["221"]%byte)
        (response_map
           (after (register_response ["001"]%byte ["221"]%byte)
                  (after (register_response ["001"]%byte ["204"]%byte)
                         nested_prefixes)))
  /\ forall r,
       In (["001"]%byte, r)
          (response_map
             (after (register_response ["001"]%byte ["221"]%byte)
                    (after (register_response ["001"]%byte ["204"]%byte)
                           nested_prefixes))) ->
       r = ["221"]%byte.
Proof.
  assert (Hnd : NoDup (map fst (response_map nested_prefixes))).
  { cbn. constructor.
    - intros [E|[]]. discriminate E.
    - constructor; [intros []|constructor]. }
  destruct (register_response_last_wins nested_prefixes
              ["001"]%byte ["204"]%byte ["221"]%byte Hnd)
    as (Hin & Huniq & _).
  split; [exact Hnd|]. split; [exact Hin | exact Huniq].
Defined.

(** X14. [register_response(k, r)] puts [(k, r)] in the table and leaves
    every other key's entries alone.  A key that is already registered
    keeps its place in the iteration order, so the order in which the keys
    of a write are tried does not change; a new key is tried last. *)
Theorem register_response_keeps_order (self : MockHandler) (k r : bytes) :
  In (k, r) (response_map (after (register_response k r) self))
  /\ (forall k' r',
        k' <> k ->
        (In (k', r') (response_map (after (register_response k r) self))
         <-> In (k', r') (response_map self)))
  /\ (In k (map fst (response_map self)) ->
      map fst (response_map (after (register_response k r) self))
      = map fst (response_map self))
  /\ (~ In k (map fst (response_map self)) ->
      response_map (after (register_response k r) self)
      = response_map self ++ [(k, r)]).
Proof.
  unfold after. rewrite register_response_eq. cbn [snd response_map].
  generalize (response_map self) as d. intros d.
  split; [apply dict_set_In|]. split; [|split].
  - intros k' r' Hne. induction d as [|[k0 r0] d IH]; cbn.
    + split; [intros [E|[]]; inversion E; congruence | intros []].
    + destruct (Py.bytes_eqb k0 k) eqn:E; cbn.
      * apply bytes_eqb_true_iff in E. subst k0.
        split; (intros [H|H]; [inversion H; congruence | right; exact H]).
      * rewrite IH. reflexivity.
  - induction d as [|[k0 r0] d IH]; cbn; intros Hin.
    + destruct Hin.
    + destruct (Py.bytes_eqb k0 k) eqn:E; cbn; [reflexivity|].
      apply bytes_eqb_false_iff in E.
      destruct Hin as [Hin|Hin]; [congruence|]. rewrite IH by exact Hin.
      reflexivity.
  - induction d as [|[k0 r0] d IH]; cbn; intros Hnot.
    + reflexivity.
    + destruct (Py.bytes_eqb k0 k) eqn:E.
      * apply bytes_eqb_true_iff in E. subst k0.
        exfalso. apply Hnot. left. reflexivity.
      * rewrite IH; [reflexivity|]. intros Hin. apply Hnot. right.
        exact Hin.
Qed.

Lemma register_response_keeps_order_witness :
  map fst (response_map
             (after (register_response ["001"]%byte ["204"]%byte)
                    nested_prefixes))
  = map fst (response_map nested_prefixes)
  /\ response_map (after (register_response ["003"]%byte ["204"]%byte)
                         nested_prefixes)
     = response_map nested_prefixes ++ [(["003"]%byte, ["204"]%byte)].
Proof.
  destruct (register_response_keeps_order nested_prefixes
              ["001"]%byte ["204"]%byte) as (_ & _ & Hold & _).
  destruct (register_response_keeps_order nested_prefixes
              ["003"]%byte ["204"]%byte) as (_ & _ & _ & Hnew).
  split.
  - apply Hold. left. reflexivity.
  - apply Hnew. intros [E|[E|[]]]; discriminate E.
Defined.

Lemma run_response_map_of_registrations (cs : list call)
    (s1 s2 : MockHandler) :
  response_map s1 = response_map s2 ->
  response_map (run cs s1)
  = response_map (run (filter is_register_response cs) s2).
Proof.
  revert s1 s2. induction cs as [|c cs IH]; intros s1 s2 H; cbn [run filter].
  - exact H.
  - destruct (is_register_response c) eqn:E.
    + cbn [run]. apply IH.
      destruct c; try discriminate E. cbn [exec].
      unfold bind. rewrite !register_response_eq. cbn. rewrite H.
      reflexivity.
    + apply IH. fold (after (exec c) s1).
      rewrite exec_keeps_response_map by exact E. exact H.
Qed.

(** X15. The response table an instance ends up with depends only on the
    [register_response] calls made on it, in their order: all other calls
    of a script can be dropped without changing it. *)
Theorem response_map_depends_on_registrations
    (cs : list call) (self : MockHandler) :
  response_map (run cs self)
  = response_map (run (filter is_register_response cs) self).
Proof.
  apply run_response_map_of_registrations. reflexivity.
Qed.

(** ** Round trips *)

Lemma send_byte_hands_the_byte (val : Z) (b : byte) :
  Py.byte_of_int val = Some b ->
  hands_to_write (send_byte (PyInt val)) [b].
Proof.
  intros H self. unfold send_byte. cbn [Py.isinstance_int].
  unfold Py.bytes_of_int. rewrite H. reflexivity.
Qed.

(** X16. For every 16-bit value [send_int] hands two bytes to [write],
    and on a connected handler whose read buffer is empty and whose
    response table does not answer them, the log records those bytes as
    written, and [send_int], [inject_data] of them and [read_int] give
    back the value. *)
Theorem send_int_read_int_round_trip (self : MockHandler) (val : Z) :
  0 <= val <= 65535 ->
  connected self = true ->
  read_buffer self = [] ->
  (forall written,
      hands_to_write (send_int val) written ->
      unmatched written (response_map self)) ->
  exists written,
    hands_to_write (send_int val) written
    /\ Py.len written = 2
    /\ logger (after (send_int val) self)
       = logger self ++ [Debug_unmapped_write written]
    /\ outcome (send_int_round_trip val written) self = Ok val.
Proof.
  intros Hv Hc Hbuf Hu.
  destruct (pack_H_bytes val Hv) as (lo & hi & Hp & _).
  pose proof (send_int_hands_packed_bytes val [lo; hi] Hp) as Hw.
  exists [lo; hi]. split; [exact Hw|]. split; [reflexivity|].
  apply send_int_round_trip_16bit; try assumption.
  apply Hu. exact Hw.
Qed.

Lemma send_int_read_int_round_trip_witness :
  exists written,
    hands_to_write (send_int 65535) written
    /\ Py.len written = 2
    /\ logger (after (send_int 65535) opened)
       = logger opened ++ [Debug_unmapped_write written]
    /\ outcome (send_int_round_trip 65535 written) opened = Ok 65535.
Proof.
  apply (send_int_read_int_round_trip opened 65535);
    [lia | reflexivity | reflexivity |].
  intros written _ command response [].
Defined.

(** X17. For every value in 0..255 [send_byte] hands one byte to
    [write], and on a connected handler whose read buffer is empty and
    whose response table does not answer it, the log records that byte as
    written, and [send_byte], [inject_data] of it and [read_byte] give
    back the value. *)
Theorem send_byte_read_byte_round_trip (self : MockHandler) (val : Z) :
  0 <= val <= 255 ->
  connected self = true ->
  read_buffer self = [] ->
  (forall written,
      hands_to_write (send_byte (PyInt val)) written ->
      unmatched written (response_map self)) ->
  exists written,
    hands_to_write (send_byte (PyInt val)) written
    /\ Py.len written = 1
    /\ logger (after (send_byte (PyInt val)) self)
       = logger self ++ [Debug_unmapped_write written]
    /\ outcome (send_byte_round_trip val written) self = Ok val.
Proof.
  intros Hv Hc Hbuf Hu.
  destruct (byte_of_int_Some val Hv) as (b & Hb & Hval).
  pose proof (send_byte_hands_the_byte val b Hb) as Hw.
  specialize (Hu _ Hw).
  exists [b]. split; [exact Hw|]. split; [reflexivity|].
  unfold outcome, after, send_byte_round_trip, inject_data, bind.
  rewrite !(Hw self). unfold bind.
  rewrite write_unmatched by assumption.
  split; [reflexivity|].
  rewrite Hbuf. step_method.
  unfold read_byte, bind.
  rewrite read_full; [|exact Hc|vm_compute; discriminate].
  cbn [read_buffer app fst].
  change (Py.slice_to [b] 1) with [b]. cbn [fst ret]. rewrite Hval.
  reflexivity.
Qed.

Lemma send_byte_read_byte_round_trip_witness :
  exists written,
    hands_to_write (send_byte (PyInt 255)) written
    /\ Py.len written = 1
    /\ logger (after (send_byte (PyInt 255)) opened)
       = logger opened ++ [Debug_unmapped_write written]
    /\ outcome (send_byte_round_trip 255 written) opened = Ok 255.
Proof.
  apply (send_byte_read_byte_round_trip opened 255);
    [lia | reflexivity | reflexivity |].
  intros written _ command response [].
Defined.

(** ** The stored port *)

Lemma exec_keeps_port_nonempty (c : call) (self : MockHandler) :
  port self <> EmptyString ->
  port (after (exec c) self) <> EmptyString.
Proof.
  intros H. destruct (is_open c) eqn:Ho.
  - destruct c as [p| | | | | | | | | | |]; try discriminate Ho.
    destruct self as [cn q m buf lg].
    destruct p as [[|a s]|]; cbn in *; try exact H. discriminate.
  - destruct (exec_keeps_port_and_connection c self Ho) as [-> _]. exact H.
Qed.

(** X18. The stored port of an instance is never the empty string:
    [__init__] falls back to ["MOCK_PORT"], [open] ignores an empty
    argument, and nothing else assigns it. *)
Theorem port_is_never_empty (p : option string) (cs : list call) :
  port (run cs (__init__ p)) <> EmptyString.
Proof.
  assert (H0 : port (__init__ p) <> EmptyString)
    by (destruct p as [[|a s]|]; cbn; discriminate).
  revert H0. generalize (__init__ p) as self.
  induction cs as [|c cs IH]; intros self H; cbn [run].
  - exact H.
  - apply IH. apply exec_keeps_port_nonempty. exact H.
Qed.

(** ** What a write can do *)

Lemma scan_split (d : bytes) (items : list (bytes * bytes)) :
  unmatched d items
  \/ exists before k r rest,
       items = before ++ (k, r) :: rest
       /\ unmatched d before
       /\ Py.startswith d k = true.
Proof.
  induction items as [|[k0 r0] items IH].
  - left. intros k r [].
  - destruct (Py.startswith d k0) eqn:E.
    + right. exists [], k0, r0, items.
      split; [reflexivity|]. split; [intros k r []|exact E].
    + destruct IH as [Hu|(before & k & r & rest & -> & Hb & Hk)].
      * left. intros k r [Hin|Hin]; [inversion Hin; subst; exact E|].
        apply (Hu k r Hin).
      * right. exists ((k0, r0) :: before), k, r, rest.
        split; [reflexivity|]. split; [|exact Hk].
        intros k' r' [Hin|Hin]; [inversion Hin; subst; exact E|].
        apply (Hb k' r' Hin).
Qed.

(** X19. On a connected handler a write does one of two things.  Either
    some registered key is a prefix of the data, and the response of the
    first such key is appended to the read buffer and nothing is logged;
    or no key is, and the read buffer is unchanged and one debug record
    with the data is logged.  Nothing that is not a registered response is
    ever appended. *)
Theorem write_responds_or_logs (self : MockHandler) (d : bytes) :
  connected self = true ->
  (exists before k r rest,
      response_map self = before ++ (k, r) :: rest
      /\ unmatched d before
      /\ Py.startswith d k = true
      /\ read_buffer (after (write d) self) = read_buffer self ++ r
      /\ logger (after (write d) self) = logger self)
  \/ (unmatched d (response_map self)
      /\ read_buffer (after (write d) self) = read_buffer self
      /\ logger (after (write d) self)
         = logger self ++ [Debug_unmapped_write d]).
Proof.
  intros Hc. unfold after.
  destruct (scan_split d (response_map self))
    as [Hu|(before & k & r & rest & Hm & Hb & Hk)].
  - right. rewrite write_unmatched by assumption.
    split; [exact Hu|]. split; reflexivity.
  - left. exists before, k, r, rest.
    rewrite (write_first_match d before k r rest) by assumption.
    repeat split; assumption.
Qed.

Lemma write_responds_or_logs_witness :
  (exists before k r rest,
      response_map nested_prefixes = before ++ (k, r) :: rest
      /\ unmatched ["002"]%byte before
      /\ Py.startswith ["002"]%byte k = true
      /\ read_buffer (after (write ["002"]%byte) nested_prefixes)
         = read_buffer nested_prefixes ++ r
      /\ logger (after (write ["002"]%byte) nested_prefixes)
         = logger nested_prefixes)
  \/ (unmatched ["002"]%byte (response_map nested_prefixes)
      /\ read_buffer (after (write ["002"]%byte) nested_prefixes)
         = read_buffer nested_prefixes
      /\ logger (after (write ["002"]%byte) nested_prefixes)
         = logger nested_prefixes ++ [Debug_unmapped_write ["002"]%byte]).
Proof.
  exact (write_responds_or_logs nested_prefixes ["002"]%byte eq_refl).
Defined.
